(** * Commuting well-being simulation: a shallow embedding

    The Python sources [economic_indicators.py] and
    [wellbeing_simulation.py] are embedded function by function, with
    [rainfall_model] of [rainfall_velocity_simulation.py], the fare
    imputation of [driving_fare_model.py] and the route loop of
    [commuting_data_parsing.py].

    Numbers.  Python floats are modelled as exact rationals ([Q], compared
    with [==]): rounding is abstracted away, every other feature of the
    arithmetic (operator order, truncation by [int], the behaviour of
    [max], division by zero) is kept.  Integers produced by [int] and by
    [random.randint] are [Z]; loop indices are [nat].

    Failure.  A run that stops is a value [Raise e] of the [Result] type;
    code that can stop is written in the error monad.  [ZeroDivision]
    stands for a division by zero: a [ZeroDivisionError] on Python
    numbers; on numpy scalars (the cells of a table row) the quotient is
    [inf] or [nan], which no rational represents, so the model stops
    there too.  [OutOfFuel] is not a Python outcome: it marks a [while]
    loop that was still running when the model's iteration budget ended. *)

From Stdlib Require Import QArith Qminmax Qround ZArith List Lia Lqa Bool Arith.
From Stdlib Require String.
Import ListNotations.
Local Open Scope Q_scope.

(** ** Python values and exceptions *)

Module Py.

Inductive Error : Type :=
| ZeroDivision
| TypeError
| ValueError
| IndexError
| UnboundLocalError
| OutOfFuel.

Inductive Result (A : Type) : Type :=
| Ok (a : A)
| Raise (e : Error).

Arguments Ok {A} a.
Arguments Raise {A} e.

Definition bind {A B : Type} (m : Result A) (k : A -> Result B) : Result B :=
  match m with
  | Ok a => k a
  | Raise e => Raise e
  end.

(** [x / y] on Python numbers. *)
Definition div (x y : Q) : Result Q :=
  if Qeq_bool y 0 then Raise ZeroDivision else Ok (x / y).

(** [max(a, b)]: the first argument is kept unless the second is
    strictly greater. *)
Definition max (a b : Q) : Q :=
  if Qle_bool b a then a else b.

(** [int(x)] on a float: truncation toward zero. *)
Definition int (x : Q) : Z :=
  Z.quot (Qnum x) (Zpos (Qden x)).

(** [sum(l)] on a list of numbers. *)
Definition sum (l : list Q) : Q :=
  fold_left Qplus l 0.

End Py.

Import Py.

Notation "x <- m ;; k" := (Py.bind m (fun x => k))
  (at level 61, m at next level, right associativity).

(** ** Rental listings

    One row of the per-workplace table read by [simulate]; only the
    columns the simulation reads are kept. *)

Record Listing : Type := mkListing {
  individual_rent_price : Q;
  driving_distance : Q;
  driving_time : Q;
  driving_fare : Q;
  commuting_distance : Q;
  commuting_time : Q;
  transit_price : Q
}.

(** ** The daily commute decision ([simulate], the body of the day loop
    up to the call of [get_consumption]) *)

Record Commute : Type := mkCommute {
  commuting_consumption : Q;
  income_lost : Q;
  time_add : Q;
  distance_add : Q
}.

(** Componentwise equality of rationals. *)
Definition Commute_eq (c d : Commute) : Prop :=
  commuting_consumption c == commuting_consumption d /\
  income_lost c == income_lost d /\
  time_add c == time_add d /\
  distance_add c == distance_add d.

(** [r % 7 == 0 or r % 7 == 1] *)
Definition rest_day (r : nat) : bool :=
  ((r mod 7 =? 0) || (r mod 7 =? 1))%nat.

Definition commute_decision
    (r : nat) (velocity_attenuation_percentage : Q)
    (rent : Listing) (income_per_hour : Q) : Result Commute :=
  let transit_distance := commuting_distance rent in
  let transit_time := commuting_time rent in
  if rest_day r then
    Ok (mkCommute 0 0 0 0)
  else if (Py.int velocity_attenuation_percentage =? 1)%Z then
    Ok (mkCommute 0 0 0 0)
  else
    fare_add <- Py.div (driving_fare rent - transit_price rent)
                       velocity_attenuation_percentage ;;
    inv <- Py.div 1 velocity_attenuation_percentage ;;
    let income_loss :=
      inv * Py.max income_per_hour 10 * (transit_time - driving_time rent) / 60 in
    if Qle_bool fare_add income_loss then
      slowed <- Py.div (driving_time rent) velocity_attenuation_percentage ;;
      inv' <- Py.div 1 velocity_attenuation_percentage ;;
      Ok (mkCommute
            fare_add
            (Py.max (slowed - transit_time) 0 / 60 * Py.max income_per_hour 10)
            (driving_time rent * inv' - transit_time)
            (driving_distance rent - transit_distance))
    else
      hours <- Py.div transit_time (60 * velocity_attenuation_percentage) ;;
      inv' <- Py.div 1 velocity_attenuation_percentage ;;
      Ok (mkCommute
            0
            (hours * Py.max income_per_hour 10)
            (transit_time * (inv' - 1))
            0).

(** The rule of the specification for a rainy workday, written with the
    specification's names.  Its quotients by [attenuation] have no value
    when [attenuation] is zero. *)
Definition spec_rainy_workday
    (attenuation : Q) (rent : Listing) (income_per_hour : Q) : option Commute :=
  let transit_time := commuting_time rent in
  let transit_distance := commuting_distance rent in
  if Qeq_bool attenuation 0 then None
  else
    let fare_add := (driving_fare rent - transit_price rent) / attenuation in
    let income_loss_if_transit :=
      (1 / attenuation) * Qmax income_per_hour 10
      * (transit_time - driving_time rent) / 60 in
    if Qle_bool fare_add income_loss_if_transit then
      Some (mkCommute
              fare_add
              (Qmax (driving_time rent / attenuation - transit_time) 0 / 60
               * Qmax income_per_hour 10)
              (driving_time rent / attenuation - transit_time)
              (driving_distance rent - transit_distance))
    else
      Some (mkCommute
              0
              (transit_time / (60 * attenuation) * Qmax income_per_hour 10)
              (transit_time * (1 / attenuation - 1))
              0).

(** The code follows the rule: same values where the rule has a value,
    an exception where it has none. *)
Definition follows (code : Result Commute) (rule : option Commute) : Prop :=
  match code, rule with
  | Ok c, Some d => Commute_eq c d
  | Raise _, None => True
  | _, _ => False
  end.

(** ** economic_indicators.py *)

Definition Qlt_bool (x y : Q) : bool := negb (Qle_bool y x).

Definition get_consumption
    (initial_disposable_consumption rent_perday income_perday
     extra_consumption_perday average_saving_ratio
     commuting_consumption income_loss : Q) : Q * Q :=
  let disposable_consumption_today :=
    Py.max
      (initial_disposable_consumption - rent_perday - extra_consumption_perday)
      (income_perday * average_saving_ratio)
    - commuting_consumption
    - income_loss in
  let asset_loss_today := commuting_consumption + income_loss in
  (disposable_consumption_today, asset_loss_today).

(** [df[(df.price < range[1] / 12) & (df.price > range[0] / 12)]] *)
Definition get_housing_group
    (df : list Listing) (rent_range_peryear : Q * Q) : list Listing :=
  filter
    (fun row =>
       Qlt_bool (individual_rent_price row) (snd rent_range_peryear / 12)
       && Qlt_bool (fst rent_range_peryear / 12) (individual_rent_price row))
    df.

Definition get_individual_income (income : Q) : Q * Q * Q :=
  let income_permonth := income / 12 in
  let income_perday := income_permonth / (2175 # 100) in
  let income_perhour := income_perday / 8 in
  (income_permonth, income_perday, income_perhour).

(** [math.exp] and [**] with a fractional exponent have no rational
    value; [get_wellbeing] takes them as parameters. *)
Record Floats : Type := mkFloats {
  power : Q -> Q -> Q;
  exp : Q -> Q
}.

Definition get_wellbeing
    (F : Floats) (disposable_asset_today disposable_asset_today_ideally theta : Q)
    : Result (Q * Q) :=
  utility <- Py.div (power F disposable_asset_today (1 - theta)) (1 - theta) ;;
  let well_being_increment := utility * exp F (- (1 # 10)) in
  utility_ideally <-
    Py.div (power F disposable_asset_today_ideally (1 - theta)) (1 - theta) ;;
  let well_being_increment_ideally := utility_ideally * exp F (- (1 # 10)) in
  let wellbeing_loss := well_being_increment_ideally - well_being_increment in
  Ok (well_being_increment, wellbeing_loss).

(** ** The random source

    The process-wide generator is a cursor into a fixed supply of raw
    integers [entropy]; every draw reads one and advances the cursor.
    Each value [random.randint] can return is returned for some supply. *)

Definition Rand (A : Type) : Type := nat -> Result (A * nat).

Definition ret {A : Type} (a : A) : Rand A := fun k => Ok (a, k).

Definition rbind {A B : Type} (m : Rand A) (f : A -> Rand B) : Rand B :=
  fun k =>
    match m k with
    | Ok (a, k') => f a k'
    | Raise e => Raise e
    end.

Definition lift {A : Type} (m : Result A) : Rand A :=
  fun k =>
    match m with
    | Ok a => Ok (a, k)
    | Raise e => Raise e
    end.

Notation "x <~ m ;; k" := (rbind m (fun x => k))
  (at level 61, m at next level, right associativity).

(** [random.randint(a, b)]: an integer of [a..b], [ValueError] on an
    empty range. *)
Definition randint (entropy : nat -> Z) (a b : Z) : Rand Z :=
  fun k =>
    if (b <? a)%Z then Raise ValueError
    else Ok ((a + entropy k mod (b - a + 1))%Z, S k).

(** [random.random()]: a float of [0, 1). *)
Definition random (entropy : nat -> Z) : Rand Q :=
  fun k => Ok (Qmake (entropy k mod 9007199254740992) 9007199254740992, S k).

Definition Zsum (l : list Z) : Z := fold_left Z.add l 0%Z.

(** One turn of the loop of [get_people_income_list]. *)
Definition income_turn
    (entropy : nat -> Z) (income_range : Q * Q) (average_income : Q)
    (people_average_income : Q) (people_income_list : list Z)
    : Rand (Q * list Z) :=
  drawn <~ (if Qlt_bool average_income people_average_income
            then randint entropy (Py.int (fst income_range)) (Py.int average_income)
            else randint entropy (Py.int average_income) (Py.int (snd income_range))) ;;
  let people_income_list := people_income_list ++ [drawn] in
  let people_average_income :=
    inject_Z (Zsum people_income_list)
    / inject_Z (Z.of_nat (length people_income_list)) in
  ret (people_average_income, people_income_list).

Fixpoint income_loop
    (entropy : nat -> Z) (income_range : Q * Q) (average_income : Q)
    (turns : nat) (people_average_income : Q) (people_income_list : list Z)
    : Rand (list Z) :=
  match turns with
  | O => ret people_income_list
  | S turns' =>
      st <~ income_turn entropy income_range average_income
                        people_average_income people_income_list ;;
      income_loop entropy income_range average_income turns' (fst st) (snd st)
  end.

Definition get_people_income_list
    (entropy : nat -> Z) (income_range : Q * Q) (average_income : Q)
    (people_number : nat) : Rand (list Z) :=
  income_loop entropy income_range average_income people_number 0 [].

(** ** wellbeing_simulation.py: housing selection *)

Fixpoint mapM {A B : Type} (f : A -> Result B) (l : list A) : Result (list B) :=
  match l with
  | [] => Ok []
  | x :: l' =>
      y <- f x ;;
      ys <- mapM f l' ;;
      Ok (y :: ys)
  end.

(** [l[i]] *)
Definition index {A : Type} (l : list A) (i : nat) : Result A :=
  match nth_error l i with
  | Some v => Ok v
  | None => Raise IndexError
  end.

(** [total = sum([1 / x for x in l]); [(1 / x) / total for x in l]] *)
Definition chance (l : list Q) : Result (list Q) :=
  inverses <- mapM (fun x => Py.div 1 x) l ;;
  let total := Py.sum inverses in
  mapM (fun x => inv <- Py.div 1 x ;; Py.div inv total) l.

Definition probability_normalize
    (distance_list time_list rent_list : list Q) (weight1 weight2 weight3 : Q)
    : Result (list Q) :=
  distance_chance <- chance distance_list ;;
  time_chance <- chance time_list ;;
  rent_chance <- chance rent_list ;;
  mapM
    (fun i =>
       d <- index distance_chance i ;;
       t <- index time_chance i ;;
       r <- index rent_chance i ;;
       Ok (d * weight1 + t * weight2 + r * weight3))
    (seq 0 (length distance_chance)).

(** The probabilities [simulate] computes for a candidate set. *)
Definition selection_probabilities (rent_option : list Listing) : Result (list Q) :=
  probability_normalize
    (map driving_distance rent_option)
    (map driving_time rent_option)
    (map individual_rent_price rent_option)
    (4 # 10) (4 # 10) (2 # 10).

(** [itertools.accumulate(weights)] *)
Fixpoint accumulate (running : Q) (weights : list Q) : list Q :=
  match weights with
  | [] => []
  | w :: ws => (running + w) :: accumulate (running + w) ws
  end.

(** [bisect.bisect(a, x, lo, hi)]; the interval halves at each turn, so
    [hi - lo] turns are enough. *)
Fixpoint bisect (turns : nat) (a : list Q) (x : Q) (lo hi : nat) : nat :=
  match turns with
  | O => lo
  | S turns' =>
      if (lo <? hi)%nat then
        let mid := ((lo + hi) / 2)%nat in
        if Qlt_bool x (nth mid a 0) then bisect turns' a x lo mid
        else bisect turns' a x (S mid) hi
      else lo
  end.

(** [random.choices(range(n), weights=weights)[0]] for [n = len(weights)] *)
Definition choices (entropy : nat -> Z) (weights : list Q) : Rand nat :=
  let cum_weights := accumulate 0 weights in
  let total := last cum_weights 0 in
  if Qle_bool total 0 then lift (Raise ValueError)
  else
    u <~ random entropy ;;
    let hi := (length weights - 1)%nat in
    ret (bisect hi cum_weights (u * total) 0 hi).

(** The [while len(rent_option) == 0] loop of [simulate], with the
    variables it updates.  [turns] bounds the number of retries the model
    follows. *)
Fixpoint widen
    (turns : nat) (df : list Listing) (individual_income : Q)
    (rent_income_ratio_range : Q * Q) (rent_option : list Listing)
    : Result (Q * Q * list Listing) :=
  match rent_option with
  | _ :: _ => Ok (rent_income_ratio_range, rent_option)
  | [] =>
      match turns with
      | O => Raise OutOfFuel
      | S turns' =>
          let rent_income_ratio_range :=
            (fst rent_income_ratio_range - (5 # 100),
             snd rent_income_ratio_range + (5 # 100)) in
          let rent_range :=
            (individual_income * fst rent_income_ratio_range,
             individual_income * snd rent_income_ratio_range) in
          widen turns' df individual_income rent_income_ratio_range
                (get_housing_group df rent_range)
      end
  end.

(** Lines 147-160: the first filter and the retries. *)
Definition housing_search
    (turns : nat) (df : list Listing) (individual_income : Q)
    (rent_income_ratio_range : Q * Q) : Result (Q * Q * list Listing) :=
  let rent_range :=
    (individual_income * fst rent_income_ratio_range,
     individual_income * snd rent_income_ratio_range) in
  widen turns df individual_income rent_income_ratio_range
        (get_housing_group df rent_range).

(** [price] lies strictly inside the monthly range of [income] times the
    ratio window. *)
Definition strictly_inside (income : Q) (window : Q * Q) (row : Listing) : Prop :=
  income * fst window / 12 < individual_rent_price row /\
  individual_rent_price row < income * snd window / 12.

(** ** wellbeing_simulation.py: one resident's year *)

(** The locals of [simulate] that the day loop reads. *)
Record Resident : Type := mkResident {
  rent : Listing;
  savings : Q;
  rent_per_day : Q;
  income_per_day : Q;
  income_per_hour : Q;
  extra_consumption_per_day : Q;
  initial_disposable_consumption : Q;
  average_saving_ratio : Q;
  theta : Q
}.

(** The lists the day loop appends to.  [consumption_no_rainfall]
    receives what [get_consumption] returns, a pair: the call on lines
    273-281 does not unpack it. *)
Record Ledgers : Type := mkLedgers {
  consumption : list Q;
  asset : list Q;
  well_being_loss : list Q;
  consumption_no_rainfall : list (Q * Q);
  asset_lost_per_day : list Q;
  time_add_per_day : list Q;
  distance_add_per_day : list Q
}.

Definition initial_ledgers (res : Resident) : Ledgers :=
  mkLedgers [] [savings res] [] [] [] [] [].

(** [sum(l)] on a list of tuples: the start value is the [int] 0, and
    [0 + tuple] raises [TypeError]. *)
Definition sum_of_tuples (l : list (Q * Q)) : Result Q :=
  match l with
  | [] => Ok 0
  | _ :: _ => Raise TypeError
  end.

(** Lines 264-272: the day's consumption and asset loss. *)
Definition consumption_of (res : Resident) (c : Commute) : Q * Q :=
  get_consumption
    (initial_disposable_consumption res) (rent_per_day res) (income_per_day res)
    (extra_consumption_per_day res) (average_saving_ratio res)
    (commuting_consumption c) (income_lost c).

(** Lines 210-298: the body of the day loop. *)
Definition day_body
    (F : Floats) (res : Resident) (st : Ledgers)
    (r : nat) (velocity_attenuation_percentage : Q) : Result Ledgers :=
  c <- commute_decision r velocity_attenuation_percentage
                        (rent res) (income_per_hour res) ;;
  let '(consumption_today, asset_lost_today) := consumption_of res c in
  let consumption_today_no_rainfall := consumption_of res (mkCommute 0 0 0 0) in
  let consumption := consumption st ++ [consumption_today] in
  let consumption_no_rainfall :=
    consumption_no_rainfall st ++ [consumption_today_no_rainfall] in
  let disposable_asset_today := savings res + Py.sum consumption in
  ideal <- sum_of_tuples consumption_no_rainfall ;;
  let disposable_asset_today_no_rainfall := savings res + ideal in
  let asset := asset st ++ [disposable_asset_today] in
  wb <- get_wellbeing F disposable_asset_today
                      disposable_asset_today_no_rainfall (theta res) ;;
  let well_being_loss_today := snd wb in
  Ok (mkLedgers
        consumption
        asset
        (well_being_loss st ++ [well_being_loss_today])
        consumption_no_rainfall
        (asset_lost_per_day st ++ [asset_lost_today])
        (time_add_per_day st ++ [time_add c])
        (distance_add_per_day st ++ [distance_add c])).

(** [for r in range(len(velocity_attenuation_percentage_list))], from
    day [r] on. *)
Fixpoint day_loop
    (F : Floats) (res : Resident) (r : nat) (days : list Q) (st : Ledgers)
    : Result Ledgers :=
  match days with
  | [] => Ok st
  | velocity_attenuation_percentage :: days' =>
      st' <- day_body F res st r velocity_attenuation_percentage ;;
      day_loop F res (S r) days' st'
  end.

(** The day loop restricted to [asset_lost_per_day], [time_add_per_day]
    and [distance_add_per_day] (lines 210-272 and 295-297).  These three
    lists are fed by the commute decision and [get_consumption] alone;
    the asset and well-being tracks do not flow into them. *)
Record Totals : Type := mkTotals {
  asset_lost : list Q;
  time_added : list Q;
  distance_added : list Q
}.

Definition commute_ledger_body
    (res : Resident) (t : Totals) (r : nat) (velocity_attenuation_percentage : Q)
    : Result Totals :=
  c <- commute_decision r velocity_attenuation_percentage
                        (rent res) (income_per_hour res) ;;
  let '(_, asset_lost_today) := consumption_of res c in
  Ok (mkTotals
        (asset_lost t ++ [asset_lost_today])
        (time_added t ++ [time_add c])
        (distance_added t ++ [distance_add c])).

Fixpoint commute_ledger
    (res : Resident) (r : nat) (days : list Q) (t : Totals) : Result Totals :=
  match days with
  | [] => Ok t
  | velocity_attenuation_percentage :: days' =>
      t' <- commute_ledger_body res t r velocity_attenuation_percentage ;;
      commute_ledger res (S r) days' t'
  end.


(** ** wellbeing_simulation.py: the population *)

(** One row of the results table: the chosen listing and the columns
    added by [assign]. *)
Record Row : Type := mkRow {
  row_listing : Listing;
  row_people_income : Z;
  row_workplace : nat;
  row_initial_savings : Q;
  row_income_group : nat;
  row_people : nat;
  row_well_being_loss : Q;
  row_asset_loss : Q;
  row_time_add : Q;
  row_distance_add : Q
}.

(** The arguments of [simulate]. *)
Record Config : Type := mkConfig {
  people : nat;
  cfg_theta : Q;
  min_consumption : Q;
  rent_income_ratio : list Q;
  average_income : list Q;
  income_range : list (Q * Q);
  velocity_attenuation_percentage_list : list Q;
  residential_consumption_proportion : Q;
  transportation_consumption_proportion : Q;
  cfg_average_saving_ratio : Q;
  workplace_name : list Z
}.

(** What [simulate] reads besides its arguments: the random source, the
    listing table of each workplace (the [read_excel] of line 124), the
    float functions, and the retry budget of the model. *)
Record World : Type := mkWorld {
  entropy : nat -> Z;
  read_excel : Z -> list Listing;
  floats : Floats;
  turns : nat
}.

(** Lines 143-311: one resident, from income to result row.  Returns the
    row and the updated [actual_average_rent_income_ratio]. *)
Definition resident_row
    (W : World) (cfg : Config) (df : list Listing) (w i p : nat)
    (individual_income : Z)
    (average_rent_income_ratio actual_average_rent_income_ratio : Q)
    : Rand (Row * Q) :=
  let '(income_per_month, income_per_day, income_per_hour) :=
    get_individual_income (inject_Z individual_income) in
  let rent_income_ratio_range :=
    if Qlt_bool actual_average_rent_income_ratio average_rent_income_ratio
    then (average_rent_income_ratio, 1)
    else (0, average_rent_income_ratio) in
  found <~ lift (housing_search (turns W) df (inject_Z individual_income)
                                rent_income_ratio_range) ;;
  let rent_option := snd found in
  prob <~ lift (selection_probabilities rent_option) ;;
  rent_index <~ choices (entropy W) prob ;;
  rent <~ lift (index rent_option rent_index) ;;
  let savings := 2 * inject_Z individual_income * cfg_average_saving_ratio cfg in
  let rent_per_month := individual_rent_price rent in
  let rent_per_day := rent_per_month / 30 in
  share <~ lift (Py.div rent_per_month income_per_month) ;;
  let actual_average_rent_income_ratio :=
    (actual_average_rent_income_ratio * inject_Z (Z.of_nat p) + share)
    / (inject_Z (Z.of_nat p) + 1) in
  housing <~ lift (Py.div rent_per_day (residential_consumption_proportion cfg)) ;;
  let extra_consumption_per_day :=
    housing * (1 - residential_consumption_proportion cfg
                 - transportation_consumption_proportion cfg) in
  let initial_disposable_consumption :=
    Py.max income_per_day (min_consumption cfg) in
  let res :=
    mkResident rent savings rent_per_day income_per_day income_per_hour
               extra_consumption_per_day initial_disposable_consumption
               (cfg_average_saving_ratio cfg) (cfg_theta cfg) in
  st <~ lift (day_loop (floats W) res 0
                       (velocity_attenuation_percentage_list cfg)
                       (initial_ledgers res)) ;;
  ret (mkRow rent individual_income (w + 1) savings (i + 1) (p + 1)
             (Py.max (Py.sum (well_being_loss st)) 0)
             (Py.sum (asset_lost_per_day st))
             (Py.sum (time_add_per_day st))
             (Py.sum (distance_add_per_day st)),
       actual_average_rent_income_ratio).

(** The data frames of [simulate]: [result_save_df] is created empty on
    line 120 and never assigned again; [result_dave_df] is assigned on
    line 312, once per resident, and written out on line 316. *)
Record Frames : Type := mkFrames {
  result_save_df : list Row;
  result_dave_df : option (list Row)
}.

(** [for p in range(len(people_income_list))], from resident [p] on. *)
Fixpoint people_loop
    (W : World) (cfg : Config) (df : list Listing) (w i p : nat)
    (incomes : list Z) (average_rent_income_ratio actual : Q) (fr : Frames)
    : Rand Frames :=
  match incomes with
  | [] => ret fr
  | individual_income :: incomes' =>
      out <~ resident_row W cfg df w i p individual_income
                          average_rent_income_ratio actual ;;
      let result_df_1 := [fst out] in
      let fr' :=
        mkFrames (result_save_df fr) (Some (result_save_df fr ++ result_df_1)) in
      people_loop W cfg df w i (S p) incomes' average_rent_income_ratio (snd out) fr'
  end.

(** Lines 128-142: the incomes of group [i], then its residents. *)
Definition income_group
    (W : World) (cfg : Config) (df : list Listing) (w i : nat) (fr : Frames)
    : Rand Frames :=
  average <~ lift (index (average_income cfg) i) ;;
  range <~ lift (index (income_range cfg) i) ;;
  people_income_list <~
    (if Qlt_bool average (fst range)
     then get_people_income_list (entropy W) (average - 100, snd range)
                                 average (people cfg)
     else get_people_income_list (entropy W) range average (people cfg)) ;;
  average_rent_income_ratio <~ lift (index (rent_income_ratio cfg) i) ;;
  people_loop W cfg df w i 0 people_income_list average_rent_income_ratio 0 fr.

(** [for i in range(len(average_income))], over the indices [groups]. *)
Fixpoint groups_loop
    (W : World) (cfg : Config) (df : list Listing) (w : nat)
    (groups : list nat) (fr : Frames) : Rand Frames :=
  match groups with
  | [] => ret fr
  | i :: groups' =>
      fr' <~ income_group W cfg df w i fr ;;
      groups_loop W cfg df w groups' fr'
  end.

(** [for w in range(4)], over the indices [places]. *)
Fixpoint workplaces_loop
    (W : World) (cfg : Config) (places : list nat) (fr : Frames) : Rand Frames :=
  match places with
  | [] => ret fr
  | w :: places' =>
      workplace <~ lift (index (workplace_name cfg) w) ;;
      let df := read_excel W workplace in
      fr' <~ groups_loop W cfg df w (seq 0 (length (average_income cfg))) fr ;;
      workplaces_loop W cfg places' fr'
  end.

(** [simulate]: the table written by [to_excel] on line 316. *)
Definition simulate (W : World) (cfg : Config) : Result (list Row) :=
  match workplaces_loop W cfg (seq 0 4) (mkFrames [] None) 0%nat with
  | Raise e => Raise e
  | Ok (fr, _) =>
      match result_dave_df fr with
      | Some table => Ok table
      | None => Raise UnboundLocalError
      end
  end.

(** The number of residents [simulate] goes through. *)
Definition simulated_residents (cfg : Config) : nat :=
  (4 * (length (average_income cfg) * people cfg))%nat.

(** ** economic_indicators.py: the city table

    [get_data] reads the sheet of cities; the model takes its rows as an
    argument. *)

Record CityRow : Type := mkCityRow {
  city_name : String.string;
  city_average_income : Q;
  city_min_c_month : Q;
  city_rent_income_ratio_col : Q
}.

Definition COUNTRY_INCOME : Q := 36883.
Definition INCOME_GROUP : list Q := [8601; 19303; 30598; 47397; 90116].
Definition URBAN_PEOPLE : Q := 897578 # 1000.
Definition RURAL_PEOPLE : Q := 514597 # 1000.
Definition INCOME_MULTIPLE : Q := 245 # 100.

(** [min(a, b)]: the first argument is kept unless the second is
    strictly smaller. *)
Definition py_min (a b : Q) : Q :=
  if Qlt_bool b a then b else a.

(** [l.index(x)] on a list of strings: the first position of [x],
    [ValueError] when there is none. *)
Fixpoint list_index (l : list String.string) (x : String.string) : Result nat :=
  match l with
  | [] => Raise ValueError
  | y :: l' =>
      if String.eqb y x then Ok 0%nat
      else
        i <- list_index l' x ;;
        Ok (S i)
  end.

Definition city_index (df : list CityRow) (city : String.string) : Result nat :=
  list_index (map city_name df) city.

Definition city_min_consumption
    (df : list CityRow) (city : String.string) : Result Q :=
  i <- city_index df city ;;
  index (map city_min_c_month df) i.

(** What [city_income] returns. *)
Record CityIncome : Type := mkCityIncome {
  income_city : Q;
  average_income_perincomegroup : list Z;
  urban_income : Q;
  income_range_perincomegroup : list (Q * Q);
  disposable_income_permonth : list Z
}.

Definition city_income
    (df : list CityRow) (city : String.string) : Result CityIncome :=
  let urban_income :=
    ((URBAN_PEOPLE + RURAL_PEOPLE) * COUNTRY_INCOME)
    / (URBAN_PEOPLE + RURAL_PEOPLE * (1 / INCOME_MULTIPLE)) in
  let adjusted_income_group :=
    map (fun i => (urban_income / COUNTRY_INCOME) * i) INCOME_GROUP in
  i <- city_index df city ;;
  income_city <- index (map city_average_income df) i ;;
  let average_income_perincomegroup :=
    map (fun i => Py.int (income_city / COUNTRY_INCOME * i))
        adjusted_income_group in
  let tran := map inject_Z average_income_perincomegroup in
  min_c <- city_min_consumption df city ;;
  let tran := min_c :: tran in
  let tran := tran ++ [2 * last tran 0] in
  income_range_perincomegroup <-
    mapM
      (fun i =>
         lower_limit <-
           (if (i =? 0)%nat then
              min_c <- city_min_consumption df city ;;
              average <- index average_income_perincomegroup i ;;
              Ok (py_min (min_c * 12) (inject_Z average / (12 # 10)))
            else
              a <- index tran i ;;
              b <- index tran (i + 1) ;;
              Ok ((a + b) / 2)) ;;
         a <- index tran (i + 1) ;;
         b <- index tran (i + 2) ;;
         let upper_limit := (a + b) / 2 in
         Ok (lower_limit, upper_limit))
      (seq 0 (length tran - 2)) ;;
  let disposable_income_permonth :=
    map (fun p => Py.int ((1 / 12) * inject_Z p)) average_income_perincomegroup in
  Ok (mkCityIncome income_city average_income_perincomegroup urban_income
                   income_range_perincomegroup disposable_income_permonth).

(** ** rainfall_velocity_simulation.py *)

Definition MAX_VEHICLE_SPEED : Q := 1.
Definition WATER_DEPTH_COEFFICIENT : Q := 24 # 10.

Definition rainfall_model (F : Floats) (rainfall_list : list Q) : list Q :=
  map
    (fun rainfall =>
       if Qeq_bool rainfall 0 then 1
       else
         let depth := WATER_DEPTH_COEFFICIENT * (75 # 100) * rainfall / 1000 in
         MAX_VEHICLE_SPEED * exp F ((- 9) * depth))
    rainfall_list.

(** ** driving_fare_model.py: the fare of a city without taxi fares

    Lines 170-179 of [main], for one row: the distance column is divided
    by 1000, the fare is the regression line clipped from below at
    [MIN_FARE] and cast to [int]. *)




(** ** commuting_data_parsing.py: the steps of a transit route

    The body of the loop over [route_info] in [parse_transit_files],
    after [ast.literal_eval]: a route is a list of steps, each a dict
    read with [get], so that a missing key gives [None]. *)

Module Words.
Import String.
Definition WALKING : String.string := "WALKING".
Definition RAIL : String.string := "RAIL".
End Words.

Record Line : Type := mkLine {
  vehicle : option String.string;
  line_duration : option Q;
  line_distance : option Q;
  price : option Q
}.

Record Step : Type := mkStep {
  mode : option String.string;
  duration : option Q;
  distance : option Q;
  lines : option (list Line)
}.

(** The lists filled for one route. *)
Record Legs : Type := mkLegs {
  walking_time_1 : list (option Q);
  walking_distance_1 : list (option Q);
  transit_time_1 : list (option Q);
  transit_distance_1 : list (option Q);
  transit_price_1 : list (option Q);
  commuting_mode_1 : list (option String.string)
}.

(** What is appended for one route to the six columns. *)
Record RouteSummary : Type := mkRouteSummary {
  route_walking_time : Q;
  route_walking_distance : Q;
  route_transit_time : Q;
  route_transit_distance : Q;
  route_transit_price : Q;
  route_commuting_mode : list (option String.string)
}.

(** [x == word] for a value read with [get]. *)
Definition is_word (x : option String.string) (word : String.string) : bool :=
  match x with
  | Some s => String.eqb s word
  | None => false
  end.

(** [sum(l)] on a list whose cells may be [None]: [TypeError] at the
    first [None]. *)
Fixpoint sum_cells (l : list (option Q)) (start : Q) : Result Q :=
  match l with
  | [] => Ok start
  | Some x :: l' => sum_cells l' (start + x)
  | None :: _ => Raise TypeError
  end.

(** Lines 104-120: one step of the route. *)
Definition route_step (acc : Legs) (each_route : Step) : Result Legs :=
  let mode := mode each_route in
  if is_word mode Words.WALKING then
    Ok (mkLegs
          (walking_time_1 acc ++ [duration each_route])
          (walking_distance_1 acc ++ [distance each_route])
          (transit_time_1 acc)
          (transit_distance_1 acc)
          (transit_price_1 acc)
          (commuting_mode_1 acc ++ [mode]))
  else
    lines <- match lines each_route with
             | Some l => index l 0
             | None => Raise TypeError
             end ;;
    let price := price lines in
    cell <- match price with
            | Some p =>
                if Qeq_bool p (- (1)) then Ok (Some 0)
                else if is_word (vehicle lines) Words.RAIL then Ok (Some (p * 100))
                else Ok (Some p)
            | None =>
                if is_word (vehicle lines) Words.RAIL then Raise TypeError
                else Ok None
            end ;;
    Ok (mkLegs
          (walking_time_1 acc)
          (walking_distance_1 acc)
          (transit_time_1 acc ++ [line_duration lines])
          (transit_distance_1 acc ++ [line_distance lines])
          (transit_price_1 acc ++ [cell])
          (commuting_mode_1 acc ++ [vehicle lines])).

Fixpoint route_steps (acc : Legs) (list_route : list Step) : Result Legs :=
  match list_route with
  | [] => Ok acc
  | each_route :: rest =>
      acc' <- route_step acc each_route ;;
      route_steps acc' rest
  end.

(** Lines 96-127: one route. *)
Definition parse_route (list_route : list Step) : Result RouteSummary :=
  legs <- route_steps (mkLegs [] [] [] [] [] []) list_route ;;
  walking_time <- sum_cells (walking_time_1 legs) 0 ;;
  walking_distance <- sum_cells (walking_distance_1 legs) 0 ;;
  transit_time <- sum_cells (transit_time_1 legs) 0 ;;
  transit_distance <- sum_cells (transit_distance_1 legs) 0 ;;
  transit_price <- sum_cells (transit_price_1 legs) 0 ;;
  Ok (mkRouteSummary
        walking_time
        (walking_distance / 1000)
        transit_time
        (transit_distance / 1000)
        (transit_price / 100)
        (commuting_mode_1 legs)).

(** ** Notions used in the statements *)

(** [people_average_income] once [l] has been drawn. *)
Definition running_average (l : list Z) : Q :=
  match l with
  | [] => 0
  | _ :: _ => inject_Z (Zsum l) / inject_Z (Z.of_nat (length l))
  end.

(** The interval the code draws the next income from. *)
Definition drawn_as_coded
    (income_range : Q * Q) (average_income running : Q) (x : Z) : Prop :=
  (average_income < running ->
   (Py.int (fst income_range) <= x <= Py.int average_income)%Z)
  /\ (running <= average_income ->
      (Py.int average_income <= x <= Py.int (snd income_range))%Z).


(** The ratio window after [j] retries. *)
Fixpoint widened (j : nat) (window : Q * Q) : Q * Q :=
  match j with
  | O => window
  | S j' => widened j' (fst window - (5 # 100), snd window + (5 # 100))
  end.

(** [result_save_df] stays empty, and [result_dave_df] is unbound or
    holds one row. *)
Definition last_row_only (fr : Frames) : Prop :=
  result_save_df fr = []
  /\ (result_dave_df fr = None \/ exists row, result_dave_df fr = Some [row]).



(** The frames after a resident has been added: [result_save_df] is
    untouched and [result_dave_df] is that frame and the row of resident
    [p] of group [i] at workplace [w], whose listing is in [df]. *)
Definition holds_row
    (fr fr' : Frames) (w i p : nat) (df : list Listing) : Prop :=
  result_save_df fr' = result_save_df fr
  /\ exists row,
      result_dave_df fr' = Some (result_save_df fr ++ [row])
      /\ row_workplace row = w
      /\ row_income_group row = i
      /\ row_people row = p
      /\ In (row_listing row) df.

(** [urban_income] of [city_income], a constant. *)
Definition URBAN_INCOME : Q :=
  ((URBAN_PEOPLE + RURAL_PEOPLE) * COUNTRY_INCOME)
  / (URBAN_PEOPLE + RURAL_PEOPLE * (1 / INCOME_MULTIPLE)).

(** The average income [city_income] gives the group of national
    average [group] in a city of average income [income]. *)
Definition tier_average (income group : Q) : Z :=
  Py.int (income / COUNTRY_INCOME * (URBAN_INCOME / COUNTRY_INCOME * group)).

(** The fare of a transit step is known to be free ([-1]) or is not
    negative. *)
Definition fare_known (s : Step) : Prop :=
  is_word (mode s) Words.WALKING = false ->
  forall first rest p,
    lines s = Some (first :: rest) -> price first = Some p ->
    p == - (1) \/ 0 <= p.

(** A transit step whose [lines] are missing or empty. *)
Definition no_line (s : Step) : Prop :=
  is_word (mode s) Words.WALKING = false
  /\ (lines s = None \/ lines s = Some []).

(** No cell of the list is negative. *)
Definition cells_nonneg (l : list (option Q)) : Prop :=
  Forall (fun cell => match cell with Some v => 0 <= v | None => True end) l.

(** * Properties *)

(** One step of a run in the [Rand] monad. *)
Ltac run_step H :=
  unfold rbind in H at 1;
  match type of H with
  | match ?m with _ => _ end = _ =>
      let E := fresh "E" in
      destruct m as [[? ?]|?] eqn:E; [|discriminate H]
  end.

(** ** Python arithmetic *)

Lemma max_is_Qmax (a b : Q) : Py.max a b == Qmax a b.
Proof.
  unfold Py.max. destruct (Qle_bool b a) eqn:E.
  - apply Qle_bool_iff in E. symmetry. now apply Q.max_l.
  - symmetry. apply Q.max_r. apply Qlt_le_weak, Qnot_le_lt.
    intro H. apply Qle_bool_iff in H. congruence.
Qed.


Lemma div_defined (x y : Q) : ~ y == 0 -> Py.div x y = Ok (x / y).
Proof.
  intro H. unfold Py.div. destruct (Qeq_bool y 0) eqn:E; [|reflexivity].
  apply Qeq_bool_iff in E. contradiction.
Qed.

Lemma div_by_zero (x y : Q) : y == 0 -> Py.div x y = Raise ZeroDivision.
Proof.
  intro H. unfold Py.div. apply Qeq_bool_iff in H. now rewrite H.
Qed.

Lemma Qlt_bool_iff (x y : Q) : Qlt_bool x y = true <-> x < y.
Proof.
  unfold Qlt_bool. rewrite negb_true_iff. split; intro H.
  - apply Qnot_le_lt. intro L. apply Qle_bool_iff in L. congruence.
  - destruct (Qle_bool y x) eqn:E; [|reflexivity].
    apply Qle_bool_iff in E. exfalso. exact (Qlt_not_le _ _ H E).
Qed.

Lemma rest_day_spec (r : nat) :
  rest_day r = true <-> (r mod 7 = 0 \/ r mod 7 = 1)%nat.
Proof.
  unfold rest_day. rewrite orb_true_iff, !Nat.eqb_eq. tauto.
Qed.

(** ** The daily commute decision *)

(** C4: a day whose index is 0 or 1 modulo 7, and a workday whose
    attenuation truncates to 1, yields zero cost, zero income loss, zero
    added time and zero added distance, and adds three zeros to the
    resident's asset-loss, time and distance lists. *)
Theorem rest_or_dry_day_adds_nothing
    (res : Resident) (t : Totals) (r : nat) (attenuation : Q) :
  (r mod 7 = 0 \/ r mod 7 = 1)%nat \/ Py.int attenuation = 1%Z ->
  commute_decision r attenuation (rent res) (income_per_hour res)
    = Ok (mkCommute 0 0 0 0)
  /\ commute_ledger_body res t r attenuation
    = Ok (mkTotals (asset_lost t ++ [0]) (time_added t ++ [0])
                   (distance_added t ++ [0])).
Proof.
  intro H.
  assert (D : commute_decision r attenuation (rent res) (income_per_hour res)
              = Ok (mkCommute 0 0 0 0)).
  { unfold commute_decision. destruct (rest_day r) eqn:E; [reflexivity|].
    destruct H as [H|H].
    - apply rest_day_spec in H. congruence.
    - rewrite H. reflexivity. }
  split; [exact D|].
  unfold commute_ledger_body. rewrite D. reflexivity.
Qed.

Lemma rest_or_dry_day_adds_nothing_witness :
  commute_decision 9 (3 # 2) (mkListing 1000 5 20 30 6 40 4) 12
    = Ok (mkCommute 0 0 0 0).
Proof.
  exact (proj1 (rest_or_dry_day_adds_nothing
                  (mkResident (mkListing 1000 5 20 30 6 40 4) 0 0 0 12 0 0 0 0)
                  (mkTotals [] [] []) 9 (3 # 2)
                  (or_intror eq_refl))).
Defined.

(** C1: on a workday (index neither 0 nor 1 modulo 7) whose attenuation
    truncates below 1, the decision computed by the day loop is the one
    of the specification's rule: the same four values wherever the rule's
    quotients exist, and an error where the attenuation is zero. *)
Theorem rainy_workday_follows_rule
    (r : nat) (attenuation : Q) (rent : Listing) (income_per_hour : Q) :
  (r mod 7 <> 0)%nat -> (r mod 7 <> 1)%nat ->
  (Py.int attenuation < 1)%Z ->
  follows (commute_decision r attenuation rent income_per_hour)
          (spec_rainy_workday attenuation rent income_per_hour).
Proof.
  intros H0 H1 Hint.
  unfold commute_decision, spec_rainy_workday.
  destruct (rest_day r) eqn:E.
  { apply rest_day_spec in E. tauto. }
  destruct (Z.eqb_spec (Py.int attenuation) 1) as [E1|_]; [lia|].
  destruct (Qeq_bool attenuation 0) eqn:Z.
  - apply Qeq_bool_iff in Z. rewrite (div_by_zero _ _ Z). exact I.
  - assert (NZ : ~ attenuation == 0).
    { intro A. apply Qeq_bool_iff in A. congruence. }
    assert (NZ60 : ~ 60 * attenuation == 0).
    { intro A. apply NZ. lra. }
    rewrite !(div_defined _ _ NZ), (div_defined _ _ NZ60). cbn [Py.bind].
    assert (B : Qle_bool
                  ((driving_fare rent - transit_price rent) / attenuation)
                  (1 / attenuation * Py.max income_per_hour 10
                   * (commuting_time rent - driving_time rent) / 60)
                = Qle_bool
                  ((driving_fare rent - transit_price rent) / attenuation)
                  (1 / attenuation * Qmax income_per_hour 10
                   * (commuting_time rent - driving_time rent) / 60)).
    { now rewrite max_is_Qmax. }
    rewrite B.
    set (drive := Qle_bool _ _).
    destruct drive; cbn [Py.bind follows];
      unfold Commute_eq; cbn [commuting_consumption income_lost time_add distance_add];
      repeat split; rewrite ?max_is_Qmax; try reflexivity.
    field; exact NZ.
Qed.

Lemma rainy_workday_follows_rule_witness :
  follows (commute_decision 2 (1 # 2) (mkListing 1000 5 20 30 6 40 4) 12)
          (spec_rainy_workday (1 # 2) (mkListing 1000 5 20 30 6 40 4) 12).
Proof.
  apply rainy_workday_follows_rule; [discriminate | discriminate | reflexivity].
Defined.

(** ** Sums *)

Lemma sum_from (l : list Q) (a : Q) : fold_left Qplus l a == a + Py.sum l.
Proof.
  unfold Py.sum. revert a.
  induction l as [|x l IH]; intro a; cbn [fold_left].
  - ring.
  - rewrite (IH (a + x)), (IH (0 + x)). ring.
Qed.

Lemma sum_cons (x : Q) (l : list Q) : Py.sum (x :: l) == x + Py.sum l.
Proof.
  unfold Py.sum at 1. cbn [fold_left]. rewrite sum_from. ring.
Qed.

Lemma sum_app (l l' : list Q) : Py.sum (l ++ l') == Py.sum l + Py.sum l'.
Proof.
  induction l as [|x l IH]; cbn [app].
  - unfold Py.sum at 2. cbn. ring.
  - rewrite !sum_cons, IH. ring.
Qed.

Lemma sum_nonneg (l : list Q) : Forall (fun x => 0 <= x) l -> 0 <= Py.sum l.
Proof.
  induction 1 as [|x l Hx _ IH].
  - discriminate.
  - rewrite sum_cons. lra.
Qed.

(** ** Daily consumption *)

(** C6: the consumption of a day is the larger of
    [baseline - rent_per_day - extra_consumption_per_day] and
    [income_per_day * saving_ratio], minus the day's commuting cost and
    income loss; the floor applies before the two subtractions.  This is
    so for [get_consumption] on all arguments, hence for the call the day
    loop makes for a resident and a day's commute decision. *)
Theorem daily_consumption_formula :
  (forall baseline rent_perday income_perday extra saving_ratio cost_added lost,
      fst (get_consumption baseline rent_perday income_perday extra
                           saving_ratio cost_added lost)
      == Qmax (baseline - rent_perday - extra) (income_perday * saving_ratio)
         - cost_added - lost)
  /\ (forall (res : Resident) (c : Commute),
         fst (consumption_of res c)
         == Qmax (initial_disposable_consumption res - rent_per_day res
                  - extra_consumption_per_day res)
                 (income_per_day res * average_saving_ratio res)
            - commuting_consumption c - income_lost c).
Proof.
  split; intros; unfold consumption_of, get_consumption; cbn [fst];
    now rewrite max_is_Qmax.
Qed.

(** What [get_consumption] returns for a day without rain exceeds what
    it returns for the day as it is by the day's asset loss. *)
Lemma no_rain_gap (res : Resident) (c : Commute) :
  fst (consumption_of res (mkCommute 0 0 0 0)) - fst (consumption_of res c)
  == snd (consumption_of res c).
Proof.
  unfold consumption_of, get_consumption.
  cbn [fst snd commuting_consumption income_lost]. ring.
Qed.

(** ** The day loop *)

(** C9: the day loop stops with a [TypeError] on its first day, for every
    resident and every attenuation series that has a first day.  Lines
    273-281 store the pair returned by [get_consumption] in
    [consumption_no_rainfall], and line 286 sums that list from 0: the
    no-rain asset track is never computed. *)
Theorem no_rain_track_raises
    (F : Floats) (res : Resident) (attenuation : Q) (days : list Q) :
  day_loop F res 0 (attenuation :: days) (initial_ledgers res) = Raise TypeError.
Proof.
  cbn [day_loop]. unfold day_body.
  change (commute_decision 0 attenuation (rent res) (income_per_hour res))
    with (Ok (mkCommute 0 0 0 0)).
  cbn [Py.bind]. destruct (consumption_of res _) as [c a].
  reflexivity.
Qed.

(** The three commute lists of a completed day loop are those of
    [commute_ledger]. *)
Lemma day_body_ledger
    (F : Floats) (res : Resident) (st st' : Ledgers) (r : nat) (a : Q) :
  day_body F res st r a = Ok st' ->
  commute_ledger_body res
    (mkTotals (asset_lost_per_day st) (time_add_per_day st)
              (distance_add_per_day st)) r a
  = Ok (mkTotals (asset_lost_per_day st') (time_add_per_day st')
                 (distance_add_per_day st')).
Proof.
  unfold day_body, commute_ledger_body.
  destruct (commute_decision r a (rent res) (income_per_hour res)) as [c|e];
    cbn [Py.bind]; [|discriminate].
  destruct (consumption_of res c) as [today lost].
  destruct (sum_of_tuples _) as [ideal|e]; cbn [Py.bind]; [|discriminate].
  destruct (get_wellbeing _ _ _ _) as [wb|e]; cbn [Py.bind]; [|discriminate].
  intro H. injection H as <-. reflexivity.
Qed.

Lemma day_loop_ledger
    (F : Floats) (res : Resident) (days : list Q) :
  forall (r : nat) (st st' : Ledgers),
    day_loop F res r days st = Ok st' ->
    commute_ledger res r days
      (mkTotals (asset_lost_per_day st) (time_add_per_day st)
                (distance_add_per_day st))
    = Ok (mkTotals (asset_lost_per_day st') (time_add_per_day st')
                   (distance_add_per_day st')).
Proof.
  induction days as [|a days IH]; intros r st st' H; cbn [day_loop commute_ledger] in *.
  - now injection H as <-.
  - destruct (day_body F res st r a) as [st1|e] eqn:B; cbn [Py.bind] in H;
      [|discriminate].
    rewrite (day_body_ledger _ _ _ _ _ _ B). cbn [Py.bind]. now apply IH.
Qed.

(** The ledger returns whenever no attenuation of the series is zero. *)
Lemma commute_decision_defined
    (r : nat) (a : Q) (rent : Listing) (income_per_hour : Q) :
  ~ a == 0 -> exists c, commute_decision r a rent income_per_hour = Ok c.
Proof.
  intro NZ. unfold commute_decision.
  destruct (rest_day r); [eauto|].
  destruct (Py.int a =? 1)%Z; [eauto|].
  assert (NZ60 : ~ 60 * a == 0) by (intro A; apply NZ; lra).
  rewrite !(div_defined _ _ NZ), (div_defined _ _ NZ60). cbn [Py.bind].
  destruct (Qle_bool _ _); eauto.
Qed.

Lemma commute_ledger_defined (res : Resident) (days : list Q) :
  Forall (fun a => ~ a == 0) days ->
  forall (r : nat) (t : Totals), exists t', commute_ledger res r days t = Ok t'.
Proof.
  induction 1 as [|a days NZ _ IH]; intros r t; cbn [commute_ledger].
  - eauto.
  - unfold commute_ledger_body.
    destruct (commute_decision_defined r a (rent res) (income_per_hour res) NZ)
      as [c ->].
    cbn [Py.bind]. destruct (consumption_of res c). cbn [Py.bind]. apply IH.
Qed.







(** ** The results table *)

Lemma lift_inv {A : Type} (m : Result A) (k : nat) (a : A) (k' : nat) :
  lift m k = Ok (a, k') -> m = Ok a /\ k' = k.
Proof.
  unfold lift. destruct m; [|discriminate]. intro H. injection H as -> ->. auto.
Qed.

Lemma people_loop_last_row_only
    (W : World) (cfg : Config) (df : list Listing) (w i : nat) (ratio : Q)
    (incomes : list Z) :
  forall (p : nat) (actual : Q) (fr fr' : Frames) (k k' : nat),
    people_loop W cfg df w i p incomes ratio actual fr k = Ok (fr', k') ->
    last_row_only fr -> last_row_only fr'.
Proof.
  induction incomes as [|income incomes IH]; intros p actual fr fr' k k' H Inv;
    cbn [people_loop] in H.
  - unfold ret in H. now injection H as <- _.
  - run_step H. apply IH in H; [exact H|].
    destruct Inv as [Save _]. split; cbn [result_save_df result_dave_df].
    + exact Save.
    + right. rewrite Save. eexists. reflexivity.
Qed.

Lemma income_group_last_row_only
    (W : World) (cfg : Config) (df : list Listing) (w i : nat)
    (fr fr' : Frames) (k k' : nat) :
  income_group W cfg df w i fr k = Ok (fr', k') ->
  last_row_only fr -> last_row_only fr'.
Proof.
  unfold income_group. intro H. do 4 run_step H.
  eapply people_loop_last_row_only; eassumption.
Qed.

Lemma groups_loop_last_row_only
    (W : World) (cfg : Config) (df : list Listing) (w : nat) (groups : list nat) :
  forall (fr fr' : Frames) (k k' : nat),
    groups_loop W cfg df w groups fr k = Ok (fr', k') ->
    last_row_only fr -> last_row_only fr'.
Proof.
  induction groups as [|i groups IH]; intros fr fr' k k' H Inv;
    cbn [groups_loop] in H.
  - unfold ret in H. now injection H as <- _.
  - run_step H. eapply IH; [eassumption|].
    eapply income_group_last_row_only; eassumption.
Qed.

Lemma workplaces_loop_last_row_only
    (W : World) (cfg : Config) (places : list nat) :
  forall (fr fr' : Frames) (k k' : nat),
    workplaces_loop W cfg places fr k = Ok (fr', k') ->
    last_row_only fr -> last_row_only fr'.
Proof.
  induction places as [|w places IH]; intros fr fr' k k' H Inv;
    cbn [workplaces_loop] in H.
  - unfold ret in H. now injection H as <- _.
  - do 2 run_step H. eapply IH; [eassumption|].
    eapply groups_loop_last_row_only; eassumption.
Qed.

(** Without a resident the frames are left as they were. *)
Lemma income_group_nobody
    (W : World) (cfg : Config) (df : list Listing) (w i : nat)
    (fr fr' : Frames) (k k' : nat) :
  people cfg = 0%nat ->
  income_group W cfg df w i fr k = Ok (fr', k') -> fr' = fr.
Proof.
  intros P H. unfold income_group in H. rewrite P in H.
  unfold get_people_income_list in H. cbn [income_loop] in H.
  do 2 run_step H.
  assert (S : forall (b : bool) (k0 k1 : nat) (l0 : list Z),
             (if b then ret (A := list Z) [] else ret []) k0 = Ok (l0, k1) ->
             l0 = []).
  { intros b k0 k1 l0. destruct b; unfold ret; intro X; now injection X as <- _. }
  run_step H. apply S in E1. subst. run_step H.
  cbn [people_loop] in H. unfold ret in H. now injection H as <- _.
Qed.

Lemma groups_loop_nobody
    (W : World) (cfg : Config) (df : list Listing) (w : nat) (groups : list nat) :
  people cfg = 0%nat ->
  forall (fr fr' : Frames) (k k' : nat),
    groups_loop W cfg df w groups fr k = Ok (fr', k') -> fr' = fr.
Proof.
  intro P. induction groups as [|i groups IH]; intros fr fr' k k' H;
    cbn [groups_loop] in H.
  - unfold ret in H. now injection H as <- _.
  - run_step H. apply IH in H. apply (income_group_nobody _ _ _ _ _ _ _ _ _ P) in E.
    congruence.
Qed.

Lemma workplaces_loop_nobody
    (W : World) (cfg : Config) (places : list nat) :
  (people cfg = 0 \/ average_income cfg = [])%nat ->
  forall (fr fr' : Frames) (k k' : nat),
    workplaces_loop W cfg places fr k = Ok (fr', k') -> fr' = fr.
Proof.
  intro P. induction places as [|w places IH]; intros fr fr' k k' H;
    cbn [workplaces_loop] in H.
  - unfold ret in H. now injection H as <- _.
  - do 2 run_step H. apply IH in H. subst fr'.
    destruct P as [P|P].
    + exact (groups_loop_nobody _ _ _ _ _ P _ _ _ _ E0).
    + rewrite P in E0. cbn in E0. unfold ret in E0. now injection E0 as <- _.
Qed.

(** C3: whatever its arguments, [simulate] either stops with an error or
    writes a table of exactly one row, although it then went through at
    least four residents ([simulated_residents]): line 312 joins each new
    row to [result_save_df], which is never assigned after its creation,
    and stores the result under another name, [result_dave_df]. *)
Theorem simulate_writes_one_row (W : World) (cfg : Config) :
  match simulate W cfg with
  | Ok table => length table = 1%nat /\ (4 <= simulated_residents cfg)%nat
  | Raise _ => True
  end.
Proof.
  unfold simulate.
  destruct (workplaces_loop W cfg (seq 0 4) (mkFrames [] None) 0%nat)
    as [[fr k]|e] eqn:E; [|exact I].
  destruct (result_dave_df fr) as [table|] eqn:T; [|exact I].
  split.
  - apply workplaces_loop_last_row_only in E.
    + destruct E as [_ [N|[row R]]]; [congruence|].
      rewrite R in T. now injection T as <-.
    + split; [reflexivity|now left].
  - unfold simulated_residents.
    destruct (people cfg) as [|n] eqn:P.
    { apply (workplaces_loop_nobody _ _ _ (or_introl P)) in E.
      subst fr. discriminate T. }
    destruct (average_income cfg) as [|a l] eqn:A.
    { apply (workplaces_loop_nobody _ _ _ (or_intror A)) in E.
      subst fr. discriminate T. }
    cbn [length]. lia.
Qed.

(** A run of [simulate]: one income group of two people, an empty
    attenuation series, two listings per workplace.  Eight residents are
    simulated and the table holds the last one. *)
Lemma simulate_eight_residents_one_row :
  let cfg :=
    mkConfig 2 (3 # 2) 50 [3 # 10] [60000] [(40000, 90000)] []
             (24 # 100) (13 # 100) (335 # 1000) [1; 2; 3; 4]%Z in
  let W :=
    mkWorld (fun k => Z.of_nat (k * 37 + 5))
            (fun _ => [mkListing 1000 5 20 30 6 40 4;
                       mkListing 2000 3 10 20 4 30 3])
            (mkFloats (fun x _ => x) (fun _ => 1)) 50 in
  simulated_residents cfg = 8%nat
  /\ exists row,
       simulate W cfg = Ok [row]
       /\ row_workplace row = 4%nat /\ row_people row = 2%nat.
Proof.
  cbv zeta. split; [reflexivity|].
  eexists. split; [vm_compute; reflexivity|]. split; reflexivity.
Qed.

(** ** The income draw *)

Lemma randint_range (e : nat -> Z) (a b : Z) (k : nat) (x : Z) (k' : nat) :
  randint e a b k = Ok (x, k') -> (a <= x <= b)%Z /\ k' = S k.
Proof.
  unfold randint. destruct (Z.ltb_spec b a) as [L|L]; [discriminate|].
  intro H. injection H as <- <-. split; [|reflexivity].
  pose proof (Z.mod_pos_bound (e k) (b - a + 1)). lia.
Qed.

(** Every integer of the interval is drawn for some supply. *)
Lemma randint_onto (a b x : Z) (k : nat) :
  (a <= x <= b)%Z -> randint (fun _ => (x - a)%Z) a b k = Ok (x, S k).
Proof.
  intro H. unfold randint. destruct (Z.ltb_spec b a) as [L|L]; [lia|].
  rewrite Z.mod_small by lia. do 2 f_equal. lia.
Qed.

Lemma running_average_snoc (l : list Z) (x : Z) :
  inject_Z (Zsum (l ++ [x])) / inject_Z (Z.of_nat (length (l ++ [x])))
  = running_average (l ++ [x]).
Proof. destruct l; reflexivity. Qed.

Lemma income_turn_interval
    (e : nat -> Z) (range : Q * Q) (avg running : Q) (pl : list Z)
    (k : nat) (a' : Q) (l' : list Z) (k' : nat) :
  income_turn e range avg running pl k = Ok ((a', l'), k') ->
  exists x,
    l' = pl ++ [x] /\ a' = running_average l' /\ k' = S k
    /\ drawn_as_coded range avg running x.
Proof.
  unfold income_turn, rbind, ret. intro H.
  destruct (Qlt_bool avg running) eqn:B.
  - destruct (randint e _ _ k) as [[x k1]|err] eqn:R; [|discriminate].
    injection H as <- <- <-. apply randint_range in R. destruct R as [R ->].
    exists x. rewrite running_average_snoc.
    split; [reflexivity|]. split; [reflexivity|]. split; [reflexivity|].
    apply Qlt_bool_iff in B. split; intro; [exact R|exfalso; lra].
  - destruct (randint e _ _ k) as [[x k1]|err] eqn:R; [|discriminate].
    injection H as <- <- <-. apply randint_range in R. destruct R as [R ->].
    exists x. rewrite running_average_snoc.
    split; [reflexivity|]. split; [reflexivity|]. split; [reflexivity|].
    split; intro L; [apply Qlt_bool_iff in L; congruence|exact R].
Qed.

Lemma income_loop_intervals
    (e : nat -> Z) (range : Q * Q) (avg : Q) (n : nat) :
  forall (pl : list Z) (k : nat) (l : list Z) (k' : nat),
    income_loop e range avg n (running_average pl) pl k = Ok (l, k') ->
    exists tail,
      l = pl ++ tail /\ length tail = n
      /\ forall i x,
          nth_error tail i = Some x ->
          drawn_as_coded range avg
            (running_average (firstn (length pl + i) l)) x.
Proof.
  induction n as [|n IH]; intros pl k l k' H; cbn [income_loop] in H.
  - unfold ret in H. injection H as <- _. exists []. rewrite app_nil_r.
    split; [reflexivity|]. split; [reflexivity|].
    intros [|i] y; discriminate.
  - unfold rbind in H at 1.
    destruct (income_turn e range avg (running_average pl) pl k)
      as [[[a1 l1] k1]|err] eqn:T; [|discriminate].
    apply income_turn_interval in T. destruct T as (x & -> & -> & -> & D).
    cbn [fst snd] in H. apply IH in H. destruct H as (tail & -> & Len & P).
    exists (x :: tail). rewrite <- app_assoc. cbn [app length].
    split; [reflexivity|]. split; [now rewrite Len|].
    intros [|i] y Hy; cbn [nth_error] in Hy.
    + injection Hy as <-. rewrite Nat.add_0_r, firstn_app, Nat.sub_diag.
      rewrite firstn_all. cbn [firstn]. now rewrite app_nil_r.
    + apply P in Hy. rewrite <- app_assoc in Hy. cbn [app] in Hy.
      rewrite length_app in Hy. cbn [length] in Hy.
      now replace (length pl + S i)%nat with (length pl + 1 + i)%nat by lia.
Qed.

(** C5, as amended: in a completed income draw, an income drawn when the
    running average of the incomes before it is strictly above the target
    [average_income] lies in [int(range_low) .. int(average_income)]; an
    income drawn when the running average is at or below the target (in
    particular the first one, drawn at running average 0) lies in
    [int(average_income) .. int(range_high)]. *)
Theorem income_draw_intervals
    (e : nat -> Z) (range : Q * Q) (average : Q) (n k : nat)
    (l : list Z) (k' : nat) :
  get_people_income_list e range average n k = Ok (l, k') ->
  length l = n
  /\ forall i x,
      nth_error l i = Some x ->
      (average < running_average (firstn i l) ->
       (Py.int (fst range) <= x <= Py.int average)%Z)
      /\ (running_average (firstn i l) <= average ->
          (Py.int average <= x <= Py.int (snd range))%Z).
Proof.
  unfold get_people_income_list. intro H.
  apply (income_loop_intervals e range average n []) in H.
  destruct H as (tail & -> & Len & P). cbn [app length Nat.add] in *.
  split; [exact Len|]. intros i x Hx. exact (P i x Hx).
Qed.

Lemma income_draw_intervals_witness :
  exists l,
    get_people_income_list (fun _ => 50%Z) (0, 200) 100 3 0%nat = Ok (l, 3%nat)
    /\ length l = 3%nat.
Proof.
  eexists. split; [vm_compute; reflexivity|].
  exact (proj1 (income_draw_intervals (fun _ => 50%Z) (0, 200) 100 3 0%nat
                                      [150; 50; 150]%Z 3 eq_refl)).
Defined.

(** C5 as stated fails at both of its halves.  With a range of 0 to 200
    and a target of 100: the first income is drawn at running average 0,
    strictly below the target, and is 150, outside [0, 100]; the second
    is drawn at running average 150, above the target, and is 50, outside
    [100, 200]. *)
Lemma income_draw_reverses_claimed_intervals :
  get_people_income_list (fun _ => 50%Z) (0, 200) 100 2 0%nat
    = Ok ([150; 50]%Z, 2%nat)
  /\ (running_average [] < 100
      /\ ~ (Py.int 0 <= 150 <= Py.int 100)%Z)
  /\ (100 <= running_average [150%Z]
      /\ ~ (Py.int 100 <= 50 <= Py.int 200)%Z).
Proof.
  split; [vm_compute; reflexivity|].
  split; (split; [vm_compute; congruence|vm_compute; intros [A B]; congruence]).
Qed.

(** C10: when the target [average_income] is positive, the first income
    of the draw comes from [randint(int(average_income), int(range_high))]:
    a draw of one person returns such an income as soon as that interval
    is not empty, and every completed draw of one or more people starts
    with an income of that interval, hence with at least
    [int(average_income)]. *)
Theorem first_income_from_upper_interval
    (e : nat -> Z) (range : Q * Q) (average : Q) (k : nat) :
  0 < average ->
  ((Py.int average <= Py.int (snd range))%Z ->
   exists x,
     get_people_income_list e range average 1 k = Ok ([x], S k)
     /\ (Py.int average <= x <= Py.int (snd range))%Z)
  /\ (forall n l k',
         get_people_income_list e range average (S n) k = Ok (l, k') ->
         exists x rest,
           l = x :: rest
           /\ (Py.int average <= x <= Py.int (snd range))%Z).
Proof.
  intro Pos. split.
  - intro NE. unfold get_people_income_list. cbn [income_loop].
    unfold rbind, income_turn, rbind.
    assert (B : Qlt_bool average 0 = false).
    { destruct (Qlt_bool average 0) eqn:B; [|reflexivity].
      apply Qlt_bool_iff in B. exfalso. lra. }
    rewrite B. unfold randint.
    destruct (Z.ltb_spec (Py.int (snd range)) (Py.int average)) as [L|L]; [lia|].
    cbn [ret fst snd app]. eexists. split; [reflexivity|].
    pose proof (Z.mod_pos_bound (e k)
                  (Py.int (snd range) - Py.int average + 1)). lia.
  - intros n l k' H. unfold get_people_income_list in H.
    apply (income_loop_intervals e range average (S n) []) in H.
    destruct H as (tail & -> & Len & P).
    destruct tail as [|x rest]; [discriminate|].
    exists x, rest. split; [reflexivity|].
    destruct (P 0%nat x eq_refl) as [_ U]. apply U.
    cbn. apply Qlt_le_weak. exact Pos.
Qed.

Lemma first_income_from_upper_interval_witness :
  exists x,
    get_people_income_list (fun _ => 50%Z) (0, 200) 100 1 0%nat = Ok ([x], 1%nat)
    /\ (Py.int 100 <= x <= Py.int 200)%Z.
Proof.
  refine (proj1 (first_income_from_upper_interval
                   (fun _ => 50%Z) (0, 200) 100 0%nat _) _).
  - reflexivity.
  - vm_compute. discriminate.
Defined.

(** ** Selection probabilities *)














(** ** The housing search *)

Lemma widened_bounds (j : nat) :
  forall window,
    fst (widened j window) == fst window - inject_Z (Z.of_nat j) * (5 # 100)
    /\ snd (widened j window) == snd window + inject_Z (Z.of_nat j) * (5 # 100).
Proof.
  induction j as [|j IH]; intro window.
  - cbn [widened]. change (inject_Z (Z.of_nat 0)) with 0. split; ring.
  - cbn [widened]. destruct (IH (fst window - (5 # 100), snd window + (5 # 100)))
      as [A B]. cbn [fst snd] in A, B.
    rewrite A, B, Nat2Z.inj_succ. unfold Z.succ. rewrite inject_Z_plus.
    change (inject_Z 1) with 1. split; ring.
Qed.

Lemma housing_group_spec (df : list Listing) (income : Q) (window : Q * Q)
    (row : Listing) :
  In row (get_housing_group df (income * fst window, income * snd window))
  <-> In row df /\ strictly_inside income window row.
Proof.
  unfold get_housing_group, strictly_inside. cbn [fst snd].
  rewrite filter_In, andb_true_iff, !Qlt_bool_iff. tauto.
Qed.





(** * Further properties of the code *)

(** ** The housing search: when it does not end, and where it stops *)

Lemma mult_le_nonneg_l (x y z : Q) : 0 <= z -> x <= y -> z * x <= z * y.
Proof.
  intros Z L. rewrite (Qmult_comm z x), (Qmult_comm z y).
  now apply Qmult_le_compat_r.
Qed.

Lemma housing_group_of_nothing (rent_range : Q * Q) :
  get_housing_group [] rent_range = [].
Proof. reflexivity. Qed.

(** X1: on an empty listing table the widening loop is still running after
    any number of retries. *)
Theorem housing_search_empty_table (n : nat) (income : Q) (window : Q * Q) :
  housing_search n [] income window = Raise OutOfFuel.
Proof.
  unfold housing_search. rewrite housing_group_of_nothing.
  revert window. induction n as [|n IH]; intro window; cbn [widen].
  - reflexivity.
  - rewrite housing_group_of_nothing. apply IH.
Qed.

Lemma no_listing_for_nonpositive_income
    (df : list Listing) (income : Q) (window : Q * Q) :
  income <= 0 -> fst window <= snd window ->
  get_housing_group df (income * fst window, income * snd window) = [].
Proof.
  intros Neg W. destruct (get_housing_group df _) as [|row rows] eqn:G;
    [reflexivity|exfalso].
  assert (I : In row (get_housing_group df
                        (income * fst window, income * snd window)))
    by (rewrite G; now left).
  apply filter_In in I. destruct I as [_ I]. cbn [fst snd] in I.
  apply andb_true_iff in I. destruct I as [U L].
  apply Qlt_bool_iff in U. apply Qlt_bool_iff in L.
  assert (M : income * snd window <= income * fst window).
  { setoid_replace (income * snd window) with (- (- income * snd window)) by ring.
    setoid_replace (income * fst window) with (- (- income * fst window)) by ring.
    apply Qopp_le_compat. apply mult_le_nonneg_l; lra. }
  assert (S12 : income * snd window / 12 <= income * fst window / 12).
  { unfold Qdiv. apply Qmult_le_compat_r; [exact M|discriminate]. }
  lra.
Qed.

(** X2: for a resident whose income is zero or negative, and a ratio window
    whose lower bound does not exceed the upper one, no listing of any
    table is ever in range: the widening loop is still running after any
    number of retries. *)
Theorem housing_search_nonpositive_income
    (n : nat) (df : list Listing) (income : Q) (window : Q * Q) :
  income <= 0 -> fst window <= snd window ->
  housing_search n df income window = Raise OutOfFuel.
Proof.
  intros Neg. unfold housing_search. revert window.
  induction n as [|n IH]; intros window W;
    rewrite (no_listing_for_nonpositive_income df income window Neg W);
    cbn [widen].
  - reflexivity.
  - cbn [fst snd]. 
    apply (IH (fst window - (5 # 100), snd window + (5 # 100))).
    cbn [fst snd]. lra.
Qed.

Lemma housing_search_nonpositive_income_witness :
  housing_search 40 [mkListing 1000 5 20 30 6 40 4] 0 (3 # 10, 1)
  = Raise OutOfFuel.
Proof.
  apply housing_search_nonpositive_income; [discriminate|discriminate].
Defined.

(** X3: a search that returns has stopped at the first window, in the order
    of the retries, that holds a listing: the window is the one after
    some [j] retries within the budget, the listings are those strictly
    inside it, and every earlier window held none. *)
Theorem housing_search_first_window
    (n : nat) (df : list Listing) (income : Q) (window window' : Q * Q)
    (found : list Listing) :
  housing_search n df income window = Ok (window', found) ->
  exists j,
    (j <= n)%nat
    /\ window' = widened j window
    /\ found = get_housing_group df
                 (income * fst window', income * snd window')
    /\ found <> []
    /\ forall i, (i < j)%nat ->
         get_housing_group df
           (income * fst (widened i window), income * snd (widened i window))
         = [].
Proof.
  unfold housing_search. revert window.
  induction n as [|n IH]; intros window H.
  - destruct (get_housing_group df (income * fst window, income * snd window))
      as [|row rows] eqn:G; cbn [widen] in H; [discriminate|].
    injection H as <- <-. exists 0%nat. cbn [widened].
    split; [lia|]. split; [reflexivity|]. split; [now rewrite G|].
    split; [discriminate|]. intros i Hi. lia.
  - destruct (get_housing_group df (income * fst window, income * snd window))
      as [|row rows] eqn:G; cbn [widen] in H.
    + cbn [fst snd] in H. apply IH in H.
      destruct H as (j & Le & -> & F & NE & Before).
      exists (S j). cbn [widened].
      split; [lia|]. split; [reflexivity|]. split; [exact F|].
      split; [exact NE|].
      intros [|i] Hi; cbn [widened]; [exact G|]. apply Before. lia.
    + injection H as <- <-. exists 0%nat. cbn [widened].
      split; [lia|]. split; [reflexivity|]. split; [now rewrite G|].
      split; [discriminate|]. intros i Hi. lia.
Qed.

Lemma housing_search_first_window_witness :
  exists j,
    (j <= 30)%nat
    /\ (widened 21 (3 # 10, 1)) = widened j (3 # 10, 1).
Proof.
  destruct (housing_search_first_window
              30 [mkListing 1000 5 20 30 6 40 4] 6000 (3 # 10, 1)
              (widened 21 (3 # 10, 1)) [mkListing 1000 5 20 30 6 40 4])
    as (j & Le & E & _).
  - vm_compute. reflexivity.
  - exists j. split; [exact Le|exact E].
Defined.

(** X4: for a non-negative income a retry never loses a candidate: the
    listings in range before the retries are in range after them. *)
Theorem widening_keeps_candidates
    (df : list Listing) (income : Q) (window : Q * Q) (j : nat) :
  0 <= income ->
  incl (get_housing_group df (income * fst window, income * snd window))
       (get_housing_group df
          (income * fst (widened j window), income * snd (widened j window))).
Proof.
  intros Pos row I. apply housing_group_spec in I. apply housing_group_spec.
  destruct I as [I [L U]]. split; [exact I|].
  destruct (widened_bounds j window) as [A B].
  assert (J : 0 <= inject_Z (Z.of_nat j) * (5 # 100)).
  { apply Qmult_le_0_compat; [|discriminate].
    change 0 with (inject_Z 0). rewrite <- Zle_Qle. lia. }
  unfold strictly_inside. rewrite A, B. split.
  - apply Qle_lt_trans with (income * fst window / 12); [|exact L].
    unfold Qdiv. apply Qmult_le_compat_r; [|discriminate].
    apply mult_le_nonneg_l; lra.
  - apply Qlt_le_trans with (income * snd window / 12); [exact U|].
    unfold Qdiv. apply Qmult_le_compat_r; [|discriminate].
    apply mult_le_nonneg_l; lra.
Qed.

Lemma widening_keeps_candidates_witness :
  incl (get_housing_group [mkListing 1000 5 20 30 6 40 4]
          (30000 * fst (3 # 10, 1), 30000 * snd (3 # 10, 1)))
       (get_housing_group [mkListing 1000 5 20 30 6 40 4]
          (30000 * fst (widened 3 (3 # 10, 1)),
           30000 * snd (widened 3 (3 # 10, 1)))).
Proof.
  apply widening_keeps_candidates. discriminate.
Defined.

(** ** The weighted choice of a listing *)

Lemma last_cons {A : Type} (a d : A) (l : list A) : last (a :: l) d = last l a.
Proof.
  revert a d. induction l as [|b l IH]; intros a d; [reflexivity|].
  change (last (a :: b :: l) d) with (last (b :: l) d). now rewrite !IH.
Qed.

Lemma accumulate_last (w : list Q) :
  forall r, last (accumulate r w) r == r + Py.sum w.
Proof.
  induction w as [|x w IH]; intro r; cbn [accumulate].
  - cbn. ring.
  - rewrite last_cons, IH, sum_cons. ring.
Qed.

Lemma accumulate_length (w : list Q) :
  forall r, length (accumulate r w) = length w.
Proof.
  induction w as [|x w IH]; intro r; cbn [accumulate length]; [reflexivity|].
  now rewrite IH.
Qed.

Lemma bisect_bounds (a : list Q) (x : Q) (fuel : nat) :
  forall lo hi, (lo <= hi)%nat -> (lo <= bisect fuel a x lo hi <= hi)%nat.
Proof.
  induction fuel as [|fuel IH]; intros lo hi L; cbn [bisect]; [lia|].
  destruct (Nat.ltb_spec lo hi) as [Lt|Ge]; [|lia].
  assert (M : (lo <= (lo + hi) / 2 < hi)%nat).
  { pose proof (Nat.div_mod_eq (lo + hi) 2).
    pose proof (Nat.mod_upper_bound (lo + hi) 2). lia. }
  destruct (Qlt_bool x (nth ((lo + hi) / 2) a 0)).
  - specialize (IH lo ((lo + hi) / 2)%nat). lia.
  - specialize (IH (S ((lo + hi) / 2)) hi). lia.
Qed.

Lemma random_unit (e : nat -> Z) (k : nat) :
  exists u, random e k = Ok (u, S k) /\ 0 <= u /\ u < 1.
Proof.
  unfold random. eexists. split; [reflexivity|].
  pose proof (Z.mod_pos_bound (e k) 9007199254740992 eq_refl) as B.
  unfold Qle, Qlt. cbn [Qnum Qden]. lia.
Qed.

Lemma accumulate_total (weights : list Q) :
  last (accumulate 0 weights) 0 == Py.sum weights.
Proof. rewrite accumulate_last. ring. Qed.

Lemma choices_defined (e : nat -> Z) (weights : list Q) (k : nat) :
  0 < Py.sum weights ->
  exists i, choices e weights k = Ok (i, S k) /\ (i < length weights)%nat.
Proof.
  intro H. pose proof (accumulate_total weights) as T. unfold choices.
  destruct (Qle_bool (last (accumulate 0 weights) 0) 0) eqn:B.
  { apply Qle_bool_iff in B. rewrite T in B. exfalso. lra. }
  destruct (random_unit e k) as (u & R & _). unfold rbind. rewrite R.
  unfold ret. eexists. split; [reflexivity|].
  destruct weights as [|x w]; [exfalso; revert H; discriminate|].
  pose proof (bisect_bounds (accumulate 0 (x :: w))
                (u * last (accumulate 0 (x :: w)) 0)
                (length (x :: w) - 1) 0 (length (x :: w) - 1)) as Bd.
  cbn [length] in *. lia.
Qed.

(** [random.choices] on the weights: a [ValueError] when the weights sum
    to zero or less (an empty list included); otherwise one random number
    is consumed and the index returned is a position of the list. *)
Theorem choices_outcome (e : nat -> Z) (weights : list Q) (k : nat) :
  (Py.sum weights <= 0 -> choices e weights k = Raise ValueError)
  /\ (0 < Py.sum weights ->
      exists i,
        choices e weights k = Ok (i, S k) /\ (i < length weights)%nat).
Proof.
  split; intro H.
  - unfold choices.
    destruct (Qle_bool (last (accumulate 0 weights) 0) 0) eqn:B; [reflexivity|].
    assert (L : last (accumulate 0 weights) 0 <= 0)
      by (rewrite accumulate_total; exact H).
    apply Qle_bool_iff in L. congruence.
  - now apply choices_defined.
Qed.

Lemma choices_outcome_witness :
  exists i,
    choices (fun _ => 123456789%Z) [1 # 2; 1 # 4; 1 # 4] 0%nat = Ok (i, 1%nat)
    /\ (i < 3)%nat.
Proof.
  apply (proj2 (choices_outcome (fun _ => 123456789%Z)
                                [1 # 2; 1 # 4; 1 # 4] 0%nat)).
  reflexivity.
Defined.

Lemma accumulate_at_least (w : list Q) :
  Forall (fun x => 0 <= x) w ->
  forall r j, (j < length w)%nat -> r <= nth j (accumulate r w) 0.
Proof.
  induction 1 as [|x w Hx _ IH]; intros r j Hj; cbn [length] in Hj; [lia|].
  cbn [accumulate]. destruct j as [|j]; cbn [nth]; [lra|].
  specialize (IH (r + x) j ltac:(lia)). lra.
Qed.

Lemma accumulate_sorted (w : list Q) :
  Forall (fun x => 0 <= x) w ->
  forall r i j,
    (i <= j)%nat -> (j < length w)%nat ->
    nth i (accumulate r w) 0 <= nth j (accumulate r w) 0.
Proof.
  induction 1 as [|x w Hx Hw IH]; intros r i j Le Hj; cbn [length] in Hj; [lia|].
  cbn [accumulate]. destruct i as [|i], j as [|j]; cbn [nth]; try lia.
  - apply Qle_refl.
  - apply (accumulate_at_least w Hw (r + x) j). lia.
  - apply IH; lia.
Qed.

Lemma accumulate_first (w : list Q) (r : Q) :
  (0 < length w)%nat -> nth 0 (accumulate r w) 0 == r + nth 0 w 0.
Proof.
  destruct w as [|x w]; cbn [length]; [lia|]. intros _. reflexivity.
Qed.

Lemma accumulate_step (w : list Q) :
  forall r q,
    (S q < length w)%nat ->
    nth (S q) (accumulate r w) 0
    == nth q (accumulate r w) 0 + nth (S q) w 0.
Proof.
  induction w as [|x w IH]; intros r q Hq; cbn [length] in Hq; [lia|].
  cbn [accumulate]. destruct q as [|q].
  - cbn [nth]. apply accumulate_first. lia.
  - change (nth (S (S q)) ((r + x) :: accumulate (r + x) w) 0)
      with (nth (S q) (accumulate (r + x) w) 0).
    change (nth (S q) ((r + x) :: accumulate (r + x) w) 0)
      with (nth q (accumulate (r + x) w) 0).
    change (nth (S (S q)) (x :: w) 0) with (nth (S q) w 0).
    apply IH. lia.
Qed.

Lemma last_is_nth {A : Type} (l : list A) (d : A) :
  last l d = nth (length l - 1) l d.
Proof.
  induction l as [|a l IH]; [reflexivity|].
  destruct l as [|b l]; [reflexivity|].
  change (last (a :: b :: l) d) with (last (b :: l) d). rewrite IH.
  cbn [length]. rewrite !Nat.sub_succ, !Nat.sub_0_r. reflexivity.
Qed.

(** What the binary search of [bisect] returns on a list that is sorted
    below [top]: everything before the returned position is at most [x],
    everything from it up to [top] is above [x]. *)
Lemma bisect_splits (a : list Q) (x : Q) (top : nat) :
  (forall i j, (i <= j)%nat -> (j < top)%nat -> nth i a 0 <= nth j a 0) ->
  forall fuel lo hi,
    (lo <= hi)%nat -> (hi <= top)%nat -> (hi - lo <= fuel)%nat ->
    (forall i, (i < lo)%nat -> nth i a 0 <= x) ->
    (forall i, (hi <= i)%nat -> (i < top)%nat -> x < nth i a 0) ->
    (forall i, (i < bisect fuel a x lo hi)%nat -> nth i a 0 <= x)
    /\ (forall i, (bisect fuel a x lo hi <= i)%nat -> (i < top)%nat ->
                  x < nth i a 0).
Proof.
  intro Sorted. induction fuel as [|fuel IH]; intros lo hi L T F Below Above;
    cbn [bisect].
  - split; [exact Below|]. intros i Hi. apply Above. lia.
  - destruct (Nat.ltb_spec lo hi) as [Lt|Ge].
    + assert (M : (lo <= (lo + hi) / 2 < hi)%nat).
      { pose proof (Nat.div_mod_eq (lo + hi) 2).
        pose proof (Nat.mod_upper_bound (lo + hi) 2). lia. }
      destruct (Qlt_bool x (nth ((lo + hi) / 2) a 0)) eqn:C.
      * apply Qlt_bool_iff in C. apply IH; try lia; [exact Below|].
        intros i Hi Ht. apply Qlt_le_trans with (nth ((lo + hi) / 2) a 0);
          [exact C|]. apply Sorted; lia.
      * assert (C' : nth ((lo + hi) / 2) a 0 <= x).
        { apply Qnot_lt_le. intro N. apply Qlt_bool_iff in N. congruence. }
        apply IH; try lia; [|exact Above].
        intros i Hi. apply Qle_trans with (nth ((lo + hi) / 2) a 0);
          [|exact C']. apply Sorted; lia.
    + split; [exact Below|]. intros i Hi. apply Above. lia.
Qed.

(** X6: when no weight is negative, the index [random.choices] returns has a
    strictly positive weight: a candidate of weight zero is never
    chosen. *)
Theorem choices_picks_positive_weight
    (e : nat -> Z) (weights : list Q) (k : nat) (i k' : nat) :
  Forall (fun x => 0 <= x) weights ->
  choices e weights k = Ok (i, k') ->
  0 < nth i weights 0.
Proof.
  intros NN H. unfold choices in H.
  set (cum := accumulate 0 weights) in *.
  set (total := last cum 0) in *.
  destruct (Qle_bool total 0) eqn:B; [discriminate|].
  assert (Tpos : 0 < total).
  { apply Qnot_le_lt. intro N. apply Qle_bool_iff in N. congruence. }
  destruct (random_unit e k) as (u & R & U0 & U1).
  unfold rbind in H. rewrite R in H. unfold ret in H. injection H as <- _.
  set (top := (length weights - 1)%nat) in *.
  assert (Len : (0 < length weights)%nat).
  { destruct weights; [|cbn; lia]. exfalso. revert Tpos. discriminate. }
  set (x := u * total).
  assert (X0 : 0 <= x) by (apply Qmult_le_0_compat; lra).
  assert (X1 : x < total).
  { unfold x. setoid_replace total with (1 * total) at 2 by ring.
    now apply Qmult_lt_r. }
  assert (Top : nth top cum 0 == total).
  { unfold total. rewrite last_is_nth. unfold cum.
    rewrite accumulate_length. reflexivity. }
  pose proof (bisect_bounds cum x top 0 top (Nat.le_0_l top)) as Bd.
  destruct (bisect_splits cum x top
              (fun i j Le Lt => accumulate_sorted weights NN 0 i j Le
                                  ltac:(unfold top in Lt; lia))
              top 0%nat top (Nat.le_0_l top) (Nat.le_refl top)
              ltac:(lia) ltac:(intros; lia) ltac:(intros; lia))
    as [Before After].
  set (p := bisect top cum x 0 top) in *.
  assert (Above : x < nth p cum 0).
  { destruct (Nat.eq_dec p top) as [E|N].
    - rewrite E, Top. exact X1.
    - apply After; lia. }
  destruct p as [|q] eqn:P.
  - unfold cum in Above. rewrite accumulate_first in Above by exact Len. lra.
  - assert (Q : nth q cum 0 <= x) by (apply Before; lia).
    unfold cum in Above, Q.
    rewrite accumulate_step in Above by (unfold top in Bd; lia). lra.
Qed.

Lemma choices_picks_positive_weight_witness :
  0 < nth 2 [1 # 2; 0; 1 # 2] 0.
Proof.
  apply (choices_picks_positive_weight
           (fun _ => 6000000000000000%Z) [1 # 2; 0; 1 # 2] 0%nat 2%nat 1%nat).
  - repeat constructor; discriminate.
  - vm_compute. reflexivity.
Defined.

(** ** The selection probabilities, listing by listing *)













(** ** Division by zero in the probabilities *)

Lemma mapM_raises {A B : Type} (f : A -> Result B) (err : Py.Error) (l : list A) :
  (forall x, In x l -> f x = Raise err \/ exists v, f x = Ok v) ->
  (exists x, In x l /\ f x = Raise err) ->
  mapM f l = Raise err.
Proof.
  induction l as [|a l IH]; intros All (x & I & R); [contradiction|].
  cbn [mapM]. destruct (All a (or_introl eq_refl)) as [E|[v E]]; rewrite E;
    cbn [Py.bind]; [reflexivity|].
  destruct I as [<-|I]; [congruence|].
  rewrite IH; [reflexivity| |eauto].
  intros y Hy. apply All. now right.
Qed.

Lemma mapM_only_raises {A B : Type} (f : A -> Result B) (err : Py.Error)
    (l : list A) :
  (forall x, In x l -> f x = Raise err \/ exists v, f x = Ok v) ->
  mapM f l = Raise err \/ exists vs, mapM f l = Ok vs.
Proof.
  induction l as [|a l IH]; intro All; cbn [mapM]; [eauto|].
  destruct (All a (or_introl eq_refl)) as [E|[v E]]; rewrite E;
    cbn [Py.bind]; [now left|].
  destruct IH as [R|[vs R]]; [intros y Hy; apply All; now right| |];
    rewrite R; cbn [Py.bind]; eauto.
Qed.

Lemma div_outcome (x y : Q) :
  Py.div x y = Raise ZeroDivision \/ exists v, Py.div x y = Ok v.
Proof. unfold Py.div. destruct (Qeq_bool y 0); eauto. Qed.

Lemma chance_outcome (l : list Q) :
  chance l = Raise ZeroDivision \/ exists vs, chance l = Ok vs.
Proof.
  unfold chance.
  destruct (mapM_only_raises (fun x => Py.div 1 x) ZeroDivision l)
    as [R|[inv R]]; [intros; apply div_outcome| |]; rewrite R; cbn [Py.bind];
    [now left|].
  apply mapM_only_raises. intros x _.
  destruct (div_outcome 1 x) as [E|[v E]]; rewrite E; cbn [Py.bind];
    [now left|apply div_outcome].
Qed.

Lemma chance_of_zero (l : list Q) :
  (exists x, In x l /\ x == 0) -> chance l = Raise ZeroDivision.
Proof.
  intros (x & I & Z). unfold chance.
  rewrite (mapM_raises (fun x => Py.div 1 x) ZeroDivision l);
    [reflexivity|intros; apply div_outcome|].
  exists x. split; [exact I|now apply div_by_zero].
Qed.

(** X10: a candidate set in which some listing has a driving distance, a
    driving time or a rent equal to zero gets no probabilities: the
    computation stops on a division by zero, whatever the other
    listings are. *)
Theorem zero_value_stops_probabilities (rent_option : list Listing) :
  Exists (fun row => driving_distance row == 0
                     \/ driving_time row == 0
                     \/ individual_rent_price row == 0) rent_option ->
  selection_probabilities rent_option = Raise ZeroDivision.
Proof.
  intro Z. apply Exists_exists in Z. destruct Z as (row & I & Z).
  unfold selection_probabilities, probability_normalize.
  assert (M : forall f : Listing -> Q,
             f row == 0 -> chance (map f rent_option) = Raise ZeroDivision).
  { intros f Hf. apply chance_of_zero. exists (f row).
    split; [now apply in_map|exact Hf]. }
  destruct (chance_outcome (map driving_distance rent_option)) as [D|[dc D]];
    rewrite D; cbn [Py.bind]; [reflexivity|].
  destruct (chance_outcome (map driving_time rent_option)) as [T|[tc T]];
    rewrite T; cbn [Py.bind]; [reflexivity|].
  destruct (chance_outcome (map individual_rent_price rent_option))
    as [R|[rc R]]; rewrite R; cbn [Py.bind]; [reflexivity|].
  exfalso. destruct Z as [Z|[Z|Z]].
  - rewrite (M driving_distance Z) in D. discriminate.
  - rewrite (M driving_time Z) in T. discriminate.
  - rewrite (M individual_rent_price Z) in R. discriminate.
Qed.

Lemma zero_value_stops_probabilities_witness :
  selection_probabilities
    [mkListing 1000 5 20 30 6 40 4; mkListing 2000 3 0 20 4 30 3]
  = Raise ZeroDivision.
Proof.
  apply zero_value_stops_probabilities.
  apply Exists_cons_tl, Exists_cons_hd. right. left. reflexivity.
Defined.

(** ** The income draw: when it succeeds and when it cannot *)

Lemma int_of_nonneg (x : Q) : 0 <= x -> Py.int x = Qfloor x.
Proof.
  destruct x as [n d]. unfold Py.int, Qfloor, Qle. cbn [Qnum Qden].
  intro H. apply Z.quot_div_nonneg; lia.
Qed.

Lemma int_of_nonpos (x : Q) : x <= 0 -> Py.int x = Qceiling x.
Proof.
  destruct x as [n d]. unfold Py.int, Qceiling, Qfloor, Qopp, Qle.
  cbn [Qnum Qden]. intro H.
  replace n with (- - n)%Z at 1 by lia.
  rewrite Z.quot_opp_l by lia. f_equal. apply Z.quot_div_nonneg; lia.
Qed.

(** [int] never reverses an order. *)
Lemma int_monotone (x y : Q) : x <= y -> (Py.int x <= Py.int y)%Z.
Proof.
  intro L. destruct (Qlt_le_dec x 0) as [X|X], (Qlt_le_dec y 0) as [Y|Y].
  - rewrite !int_of_nonpos by lra. now apply Qceiling_resp_le.
  - rewrite (int_of_nonpos x), (int_of_nonneg y) by lra.
    apply Z.le_trans with 0%Z.
    + change 0%Z with (Qceiling 0). apply Qceiling_resp_le. lra.
    + change 0%Z with (Qfloor 0). now apply Qfloor_resp_le.
  - exfalso. lra.
  - rewrite !int_of_nonneg by lra. now apply Qfloor_resp_le.
Qed.

Lemma randint_defined (e : nat -> Z) (a b : Z) (k : nat) :
  (a <= b)%Z ->
  exists x, randint e a b k = Ok (x, S k) /\ (a <= x <= b)%Z.
Proof.
  intro L. unfold randint. destruct (Z.ltb_spec b a); [lia|].
  eexists. split; [reflexivity|].
  pose proof (Z.mod_pos_bound (e k) (b - a + 1)). lia.
Qed.

Lemma income_loop_defined
    (e : nat -> Z) (range : Q * Q) (avg : Q) (n : nat) :
  (Py.int (fst range) <= Py.int avg)%Z ->
  (Py.int avg <= Py.int (snd range))%Z ->
  forall running pl k,
  exists l,
    income_loop e range avg n running pl k = Ok (pl ++ l, (k + n)%nat)
    /\ length l = n
    /\ Forall (fun x => (Py.int (fst range) <= x <= Py.int (snd range))%Z) l.
Proof.
  intros Lo Hi. induction n as [|n IH]; intros running pl k; cbn [income_loop].
  - exists []. rewrite app_nil_r, Nat.add_0_r. repeat split. constructor.
  - unfold rbind at 1, income_turn, rbind at 1.
    assert (D : exists x,
               (if Qlt_bool avg running
                then randint e (Py.int (fst range)) (Py.int avg)
                else randint e (Py.int avg) (Py.int (snd range))) k
               = Ok (x, S k)
               /\ (Py.int (fst range) <= x <= Py.int (snd range))%Z).
    { destruct (Qlt_bool avg running).
      - destruct (randint_defined e _ _ k Lo) as (x & R & B).
        exists x. split; [exact R|lia].
      - destruct (randint_defined e _ _ k Hi) as (x & R & B).
        exists x. split; [exact R|lia]. }
    destruct D as (x & -> & B). cbn [ret fst snd].
    destruct (IH (inject_Z (Zsum (pl ++ [x]))
                  / inject_Z (Z.of_nat (length (pl ++ [x]))))
                 (pl ++ [x]) (S k)) as (l & -> & Len & All).
    exists (x :: l). rewrite <- app_assoc. cbn [app length].
    split; [do 2 f_equal; lia|]. split; [now rewrite Len|].
    now constructor.
Qed.

(** X11: when the three truncated bounds are in order,
    [int(range_low) <= int(average_income) <= int(range_high)], the draw
    of [n] incomes succeeds: it returns [n] incomes, all within
    [int(range_low) .. int(range_high)], and consumes [n] random
    numbers. *)
Theorem income_draw_defined
    (e : nat -> Z) (range : Q * Q) (average : Q) (n k : nat) :
  (Py.int (fst range) <= Py.int average)%Z ->
  (Py.int average <= Py.int (snd range))%Z ->
  exists l,
    get_people_income_list e range average n k = Ok (l, (k + n)%nat)
    /\ length l = n
    /\ Forall (fun x => (Py.int (fst range) <= x <= Py.int (snd range))%Z) l.
Proof.
  intros Lo Hi. unfold get_people_income_list.
  destruct (income_loop_defined e range average n Lo Hi 0 [] k)
    as (l & R & Len & All).
  exists l. cbn [app] in R. auto.
Qed.

Lemma income_draw_defined_witness :
  exists l,
    get_people_income_list (fun k => Z.of_nat (k * 37)) (0, 200) 100 4 0%nat
    = Ok (l, 4%nat)
    /\ length l = 4%nat
    /\ Forall (fun x => (Py.int 0 <= x <= Py.int 200)%Z) l.
Proof.
  apply (income_draw_defined (fun k => Z.of_nat (k * 37)) (0, 200) 100 4 0%nat).
  - vm_compute. discriminate.
  - vm_compute. discriminate.
Defined.

(** X12: when the target average is not negative and its integer part
    exceeds that of the upper end of the range, a draw of one or more
    incomes produces none: the first [randint] is given an empty
    interval and raises [ValueError]. *)
Theorem income_draw_empty_upper_interval
    (e : nat -> Z) (range : Q * Q) (average : Q) (n k : nat) :
  0 <= average ->
  (Py.int (snd range) < Py.int average)%Z ->
  get_people_income_list e range average (S n) k = Raise ValueError.
Proof.
  intros NN Empty. unfold get_people_income_list. cbn [income_loop].
  unfold rbind at 1, income_turn, rbind at 1.
  assert (B : Qlt_bool average 0 = false).
  { destruct (Qlt_bool average 0) eqn:B; [|reflexivity].
    apply Qlt_bool_iff in B. exfalso. lra. }
  rewrite B. unfold randint.
  destruct (Z.ltb_spec (Py.int (snd range)) (Py.int average)); [reflexivity|lia].
Qed.

Lemma income_draw_empty_upper_interval_witness :
  get_people_income_list (fun _ => 5%Z) (0, 90) 100 3 0%nat = Raise ValueError.
Proof.
  apply income_draw_empty_upper_interval.
  - discriminate.
  - reflexivity.
Defined.

(** X13: the guard of [simulate] on lines 128-137 keeps the lower interval of
    the draw non-empty: whichever range it passes on, the given one or
    [average - 100 .. range_high] when the given lower end exceeds the
    average, the draw of a group succeeds as soon as
    [int(average) <= int(range_high)]. *)
Theorem guarded_income_draw_defined
    (e : nat -> Z) (range : Q * Q) (average : Q) (n k : nat) :
  (Py.int average <= Py.int (snd range))%Z ->
  exists l,
    (if Qlt_bool average (fst range)
     then get_people_income_list e (average - 100, snd range) average n
     else get_people_income_list e range average n) k
    = Ok (l, (k + n)%nat)
    /\ length l = n.
Proof.
  intro Hi. destruct (Qlt_bool average (fst range)) eqn:G.
  - destruct (income_loop_defined e (average - 100, snd range) average n
                ltac:(apply int_monotone; cbn [fst]; lra) Hi 0 [] k)
      as (l & R & Len & _).
    exists l. split; [exact R|exact Len].
  - assert (L : fst range <= average).
    { apply Qnot_lt_le. intro N. apply Qlt_bool_iff in N. congruence. }
    destruct (income_loop_defined e range average n
                (int_monotone _ _ L) Hi 0 [] k)
      as (l & R & Len & _).
    exists l. split; [exact R|exact Len].
Qed.

Lemma guarded_income_draw_defined_witness :
  exists l,
    (if Qlt_bool 100 (fst (150, 200))
     then get_people_income_list (fun _ => 5%Z) (100 - 100, snd (150, 200)) 100 3
     else get_people_income_list (fun _ => 5%Z) (150, 200) 100 3) 0%nat
    = Ok (l, 3%nat)
    /\ length l = 3%nat.
Proof.
  apply (guarded_income_draw_defined (fun _ => 5%Z) (150, 200) 100 3 0%nat).
  vm_compute. discriminate.
Defined.

(** ** The well-being of a day *)

(** At [theta = 1] the utility divides by [1 - theta = 0]:
    [get_wellbeing] stops on a division by zero for all assets. *)
Theorem wellbeing_undefined_at_theta_one
    (F : Floats) (asset_today asset_ideally theta : Q) :
  theta == 1 ->
  get_wellbeing F asset_today asset_ideally theta = Raise ZeroDivision.
Proof.
  intro T. unfold get_wellbeing.
  rewrite div_by_zero by (rewrite T; reflexivity). reflexivity.
Qed.

Lemma wellbeing_undefined_at_theta_one_witness :
  get_wellbeing (mkFloats (fun x _ => x) (fun _ => 1)) 1000 1200 1
  = Raise ZeroDivision.
Proof.
  apply wellbeing_undefined_at_theta_one. reflexivity.
Defined.



(** ** The day loop, on any day *)

(** The body of the day loop completes on no day, from no state: when
    the commute decision is made, the sum over [consumption_no_rainfall],
    to which a pair has just been appended, raises [TypeError]. *)
Lemma commute_decision_error
    (r : nat) (a : Q) (rent : Listing) (income_per_hour : Q) (err : Py.Error) :
  commute_decision r a rent income_per_hour = Raise err -> err = ZeroDivision.
Proof.
  unfold commute_decision, Py.div.
  destruct (rest_day r); [discriminate|].
  destruct (Py.int a =? 1)%Z; [discriminate|].
  destruct (Qeq_bool a 0); cbn [Py.bind].
  - intro D. now injection D as <-.
  - destruct (Qle_bool _ _); cbn [Py.bind]; [discriminate|].
    destruct (Qeq_bool (60 * a) 0); cbn [Py.bind]; [|discriminate].
    intro D. now injection D as <-.
Qed.

Lemma day_body_outcome
    (F : Floats) (res : Resident) (st : Ledgers) (r : nat) (a : Q) :
  day_body F res st r a = Raise TypeError
  \/ day_body F res st r a = Raise ZeroDivision.
Proof.
  unfold day_body.
  destruct (commute_decision r a (rent res) (income_per_hour res)) as [c|err] eqn:D;
    cbn [Py.bind].
  - left. destruct (consumption_of res c) as [today lost].
    destruct (consumption_no_rainfall st); reflexivity.
  - right. now rewrite (commute_decision_error _ _ _ _ _ D).
Qed.

Lemma day_loop_completes_only_empty
    (F : Floats) (res : Resident) (r : nat) (days : list Q) (st st' : Ledgers) :
  day_loop F res r days st = Ok st' -> days = [].
Proof.
  destruct days as [|a days]; [reflexivity|]. cbn [day_loop].
  destruct (day_body_outcome F res st r a) as [E|E]; rewrite E; discriminate.
Qed.

(** ** What [simulate] needs to write a table *)

Lemma housing_search_found
    (n : nat) (df : list Listing) (income : Q) (window window' : Q * Q)
    (found : list Listing) :
  housing_search n df income window = Ok (window', found) ->
  found = get_housing_group df (income * fst window', income * snd window')
  /\ found <> [].
Proof.
  unfold housing_search. revert window.
  induction n as [|n IH]; intros window H;
    destruct (get_housing_group df (income * fst window, income * snd window))
      as [|row rows] eqn:G; cbn [widen] in H.
  - discriminate.
  - injection H as <- <-. rewrite G. split; [reflexivity|discriminate].
  - apply IH in H. exact H.
  - injection H as <- <-. rewrite G. split; [reflexivity|discriminate].
Qed.

Lemma resident_row_inv
    (W : World) (cfg : Config) (df : list Listing) (w i p : nat) (income : Z)
    (ratio actual : Q) (k : nat) (row : Row) (actual' : Q) (k' : nat) :
  resident_row W cfg df w i p income ratio actual k = Ok ((row, actual'), k') ->
  row_workplace row = (w + 1)%nat
  /\ row_income_group row = (i + 1)%nat
  /\ row_people row = (p + 1)%nat
  /\ row_people_income row = income
  /\ In (row_listing row) df
  /\ velocity_attenuation_percentage_list cfg = [].
Proof.
  unfold resident_row, get_individual_income. intro H.
  run_step H. apply lift_inv in E. destruct E as [Search ->].
  run_step H. apply lift_inv in E. destruct E as [Prob ->].
  run_step H.
  run_step H. apply lift_inv in E0. destruct E0 as [Chosen ->].
  run_step H. apply lift_inv in E0. destruct E0 as [Share ->].
  run_step H. apply lift_inv in E0. destruct E0 as [Housing ->].
  run_step H. apply lift_inv in E0. destruct E0 as [Days ->].
  unfold ret in H. injection H as <- _ _.
  cbn [row_workplace row_income_group row_people row_people_income row_listing].
  repeat split.
  - destruct p0 as [window found]. cbn [snd] in *.
    apply housing_search_found in Search. destruct Search as [-> _].
    unfold index in Chosen.
    match type of Chosen with
    | context [nth_error ?l ?n] =>
        destruct (nth_error l n) as [x|] eqn:N; [|discriminate]
    end.
    injection Chosen as ->. apply nth_error_In in N.
    apply filter_In in N. tauto.
  - eapply day_loop_completes_only_empty. exact Days.
Qed.

Lemma people_loop_rows
    (W : World) (cfg : Config) (df : list Listing) (w i : nat) (ratio : Q)
    (incomes : list Z) :
  forall (p : nat) (actual : Q) (fr fr' : Frames) (k k' : nat),
    incomes <> [] ->
    people_loop W cfg df w i p incomes ratio actual fr k = Ok (fr', k') ->
    velocity_attenuation_percentage_list cfg = []
    /\ holds_row fr fr' (w + 1) (i + 1) (p + length incomes) df.
Proof.
  induction incomes as [|income incomes IH]; intros p actual fr fr' k k' NE H;
    [congruence|]. clear NE. cbn [people_loop] in H. run_step H.
  destruct p0 as [row actual1].
  apply resident_row_inv in E. destruct E as (Rw & Ri & Rp & _ & Rl & V).
  split; [exact V|]. cbn [fst snd] in H.
  destruct incomes as [|income' incomes].
  - cbn [people_loop] in H. unfold ret in H. injection H as <- _.
    split; [reflexivity|]. exists row. cbn [result_dave_df length].
    split; [reflexivity|]. split; [exact Rw|]. split; [exact Ri|].
    split; [lia|exact Rl].
  - apply IH in H; [|discriminate]. destruct H as (_ & S & row' & D & A).
    cbn [result_save_df] in *. split; [exact S|]. exists row'.
    split; [exact D|]. cbn [length] in *.
    destruct A as (A1 & A2 & A3 & A4).
    split; [exact A1|]. split; [exact A2|]. split; [lia|exact A4].
Qed.

Lemma income_list_length
    (e : nat -> Z) (range : Q * Q) (average : Q) (n k : nat)
    (l : list Z) (k' : nat) :
  get_people_income_list e range average n k = Ok (l, k') -> length l = n.
Proof.
  unfold get_people_income_list. intro H.
  apply (income_loop_intervals e range average n []) in H.
  destruct H as (tail & -> & Len & _). exact Len.
Qed.

Lemma income_group_rows
    (W : World) (cfg : Config) (df : list Listing) (w i : nat)
    (fr fr' : Frames) (k k' : nat) :
  (0 < people cfg)%nat ->
  income_group W cfg df w i fr k = Ok (fr', k') ->
  velocity_attenuation_percentage_list cfg = []
  /\ (i < length (income_range cfg))%nat
  /\ (i < length (rent_income_ratio cfg))%nat
  /\ holds_row fr fr' (w + 1) (i + 1) (people cfg) df.
Proof.
  intros P H. unfold income_group in H.
  run_step H. apply lift_inv in E. destruct E as [_ ->].
  run_step H. apply lift_inv in E. destruct E as [Range ->].
  run_step H.
  assert (Len : length l = people cfg).
  { destruct (Qlt_bool q (fst p)); eapply income_list_length; exact E. }
  run_step H. apply lift_inv in E0. destruct E0 as [Ratio ->].
  apply people_loop_rows in H; [|intro N; rewrite N in Len; cbn in Len; lia].
  rewrite Len in H. destruct H as [V R].
  unfold index in Range, Ratio.
  destruct (nth_error (income_range cfg) i) eqn:N1; [|discriminate].
  destruct (nth_error (rent_income_ratio cfg) i) eqn:N2; [|discriminate].
  split; [exact V|].
  split; [apply nth_error_Some; congruence|].
  split; [apply nth_error_Some; congruence|exact R].
Qed.

Lemma holds_row_again (fr fr1 fr2 : Frames) (w i p : nat) (df : list Listing) :
  result_save_df fr1 = result_save_df fr ->
  holds_row fr1 fr2 w i p df -> holds_row fr fr2 w i p df.
Proof.
  intros S (S2 & row & D & A). split; [congruence|].
  exists row. rewrite <- S. auto.
Qed.

Lemma groups_loop_rows
    (W : World) (cfg : Config) (df : list Listing) (w : nat) (groups : list nat) :
  (0 < people cfg)%nat ->
  forall (fr fr' : Frames) (k k' : nat),
    groups <> [] ->
    groups_loop W cfg df w groups fr k = Ok (fr', k') ->
    velocity_attenuation_percentage_list cfg = []
    /\ Forall (fun i => (i < length (income_range cfg))%nat
                        /\ (i < length (rent_income_ratio cfg))%nat) groups
    /\ holds_row fr fr' (w + 1) (last groups 0%nat + 1) (people cfg) df.
Proof.
  intro P. induction groups as [|i groups IH]; intros fr fr' k k' NE H;
    [congruence|]. clear NE. cbn [groups_loop] in H. run_step H.
  apply (income_group_rows _ _ _ _ _ _ _ _ _ P) in E.
  destruct E as (V & I1 & I2 & R).
  destruct groups as [|i' groups].
  - cbn [groups_loop] in H. unfold ret in H. injection H as <- _.
    cbn [last]. split; [exact V|]. split; [|exact R].
    constructor; [auto|constructor].
  - apply IH in H; [|discriminate]. destruct H as (_ & All & R').
    split; [exact V|]. split; [constructor; auto|].
    change (last (i :: i' :: groups) 0%nat) with (last (i' :: groups) 0%nat).
    eapply holds_row_again; [|exact R']. apply R.
Qed.

Lemma workplaces_loop_rows (W : World) (cfg : Config) (places : list nat) :
  (0 < people cfg)%nat ->
  average_income cfg <> [] ->
  forall (fr fr' : Frames) (k k' : nat),
    places <> [] ->
    workplaces_loop W cfg places fr k = Ok (fr', k') ->
    velocity_attenuation_percentage_list cfg = []
    /\ Forall (fun w => (w < length (workplace_name cfg))%nat) places
    /\ (length (average_income cfg) <= length (income_range cfg))%nat
    /\ (length (average_income cfg) <= length (rent_income_ratio cfg))%nat
    /\ exists code,
        nth_error (workplace_name cfg) (last places 0%nat) = Some code
        /\ holds_row fr fr' (last places 0%nat + 1)
                     (length (average_income cfg)) (people cfg)
                     (read_excel W code).
Proof.
  intros P G. induction places as [|w places IH]; intros fr fr' k k' NE H;
    [congruence|]. clear NE. cbn [workplaces_loop] in H.
  run_step H. apply lift_inv in E. destruct E as [Code ->].
  unfold index in Code.
  destruct (nth_error (workplace_name cfg) w) as [code|] eqn:N; [|discriminate].
  injection Code as <-.
  assert (Hw : (w < length (workplace_name cfg))%nat)
    by (apply nth_error_Some; congruence).
  run_step H.
  apply (groups_loop_rows _ _ _ _ _ P) in E.
  2:{ destruct (average_income cfg); [congruence|discriminate]. }
  destruct E as (V & All & R).
  assert (Last : (last (seq 0 (length (average_income cfg))) 0 + 1
                  = length (average_income cfg))%nat).
  { destruct (length (average_income cfg)) as [|m] eqn:L.
    - destruct (average_income cfg); [congruence|discriminate].
    - rewrite seq_S, last_last. lia. }
  rewrite Last in R.
  assert (Idx : (length (average_income cfg) <= length (income_range cfg))%nat
                /\ (length (average_income cfg)
                    <= length (rent_income_ratio cfg))%nat).
  { rewrite Forall_forall in All.
    destruct (length (average_income cfg)) as [|m] eqn:L; [lia|].
    destruct (All m) as [A B]; [apply in_seq; lia|]. lia. }
  destruct places as [|w' places].
  - cbn [workplaces_loop] in H. unfold ret in H. injection H as <- _.
    cbn [last]. split; [exact V|]. split; [constructor; auto|].
    split; [apply Idx|]. split; [apply Idx|]. exists code. auto.
  - apply IH in H; [|discriminate].
    destruct H as (_ & All' & _ & _ & code' & N' & R').
    split; [exact V|]. split; [constructor; auto|].
    split; [apply Idx|]. split; [apply Idx|].
    change (last (w :: w' :: places) 0%nat) with (last (w' :: places) 0%nat).
    exists code'. split; [exact N'|].
    eapply holds_row_again; [|exact R']. apply R.
Qed.

(** What a completed run of [simulate] went through, and the frames it
    ends with. *)
Lemma simulate_inv (W : World) (cfg : Config) (table : list Row) :
  simulate W cfg = Ok table ->
  velocity_attenuation_percentage_list cfg = []
  /\ (4 <= length (workplace_name cfg))%nat
  /\ (0 < people cfg)%nat
  /\ average_income cfg <> []
  /\ (length (average_income cfg) <= length (income_range cfg))%nat
  /\ (length (average_income cfg) <= length (rent_income_ratio cfg))%nat
  /\ exists row code,
      table = [row]
      /\ row_workplace row = 4%nat
      /\ row_income_group row = length (average_income cfg)
      /\ row_people row = people cfg
      /\ nth_error (workplace_name cfg) 3 = Some code
      /\ In (row_listing row) (read_excel W code).
Proof.
  unfold simulate. intro H.
  destruct (workplaces_loop W cfg (seq 0 4) (mkFrames [] None) 0%nat)
    as [[fr k]|err] eqn:E; [|discriminate].
  destruct (result_dave_df fr) as [t|] eqn:T; [|discriminate].
  injection H as ->.
  assert (P : (0 < people cfg)%nat).
  { destruct (people cfg) eqn:P; [|lia].
    apply (workplaces_loop_nobody _ _ _ (or_introl P)) in E.
    subst fr. discriminate T. }
  assert (G : average_income cfg <> []).
  { intro G. apply (workplaces_loop_nobody _ _ _ (or_intror G)) in E.
    subst fr. discriminate T. }
  apply (workplaces_loop_rows _ _ _ P G) in E; [|discriminate].
  destruct E as (V & All & I1 & I2 & code & N & _ & row & D & A).
  cbn [seq last result_save_df app] in *. rewrite D in T. injection T as <-.
  split; [exact V|]. split.
  { rewrite Forall_forall in All. specialize (All 3%nat). cbn in All.
    assert (3 < length (workplace_name cfg))%nat by (apply All; tauto). lia. }
  do 4 (split; [assumption|]). exists row, code.
  destruct A as (A1 & A2 & A3 & A4). repeat split; assumption.
Qed.





(** X17: the one row [simulate] writes is that of the last resident it went
    through: workplace 4, the last income group, the last person of the
    group; its listing is a row of the table of the fourth workplace. *)
Theorem simulate_writes_last_resident
    (W : World) (cfg : Config) (table : list Row) :
  simulate W cfg = Ok table ->
  exists row code,
    table = [row]
    /\ row_workplace row = 4%nat
    /\ row_income_group row = length (average_income cfg)
    /\ row_people row = people cfg
    /\ nth_error (workplace_name cfg) 3 = Some code
    /\ In (row_listing row) (read_excel W code).
Proof.
  intro S. apply simulate_inv in S. tauto.
Qed.

Lemma simulate_writes_last_resident_witness :
  exists table row code,
    simulate
      (mkWorld (fun k => Z.of_nat (k * 37 + 5))
               (fun _ => [mkListing 1000 5 20 30 6 40 4;
                          mkListing 2000 3 10 20 4 30 3])
               (mkFloats (fun x _ => x) (fun _ => 1)) 50)
      (mkConfig 2 (3 # 2) 50 [3 # 10] [60000] [(40000, 90000)] []
                (24 # 100) (13 # 100) (335 # 1000) [1; 2; 3; 4]%Z)
    = Ok table
    /\ table = [row]
    /\ row_workplace row = 4%nat
    /\ row_people row = 2%nat
    /\ code = 4%Z.
Proof.
  eexists.
  destruct (simulate_writes_last_resident
              (mkWorld (fun k => Z.of_nat (k * 37 + 5))
                       (fun _ => [mkListing 1000 5 20 30 6 40 4;
                                  mkListing 2000 3 10 20 4 30 3])
                       (mkFloats (fun x _ => x) (fun _ => 1)) 50)
              (mkConfig 2 (3 # 2) 50 [3 # 10] [60000] [(40000, 90000)] []
                        (24 # 100) (13 # 100) (335 # 1000) [1; 2; 3; 4]%Z)
              _ ltac:(vm_compute; reflexivity))
    as (row & code & T & Rw & _ & Rp & N & _).
  exists row, code. split; [vm_compute; reflexivity|].
  split; [exact T|]. split; [exact Rw|]. split; [exact Rp|].
  cbn in N. now injection N as <-.
Defined.

(** X5: the listing picked among the candidates the housing search returns
    is a row of the workplace table and its rent lies strictly inside the
    final, possibly widened, range. *)
Theorem chosen_listing_in_final_range
    (n : nat) (df : list Listing) (income : Q) (window window' : Q * Q)
    (found : list Listing) (rent_index : nat) (row : Listing) :
  housing_search n df income window = Ok (window', found) ->
  index found rent_index = Ok row ->
  In row df /\ strictly_inside income window' row.
Proof.
  intros Search Chosen. apply housing_search_found in Search.
  destruct Search as [-> _]. unfold index in Chosen.
  destruct (nth_error _ rent_index) as [x|] eqn:N; [|discriminate].
  injection Chosen as ->. apply nth_error_In in N.
  now apply housing_group_spec in N.
Qed.

Lemma chosen_listing_in_final_range_witness :
  In (mkListing 1000 5 20 30 6 40 4)
     [mkListing 1000 5 20 30 6 40 4; mkListing 9000 3 10 20 4 30 3]
  /\ strictly_inside 6000 (widened 21 (3 # 10, 1))
                     (mkListing 1000 5 20 30 6 40 4).
Proof.
  apply (chosen_listing_in_final_range
           30 [mkListing 1000 5 20 30 6 40 4; mkListing 9000 3 10 20 4 30 3]
           6000 (3 # 10, 1) (widened 21 (3 # 10, 1))
           [mkListing 1000 5 20 30 6 40 4] 0%nat).
  - vm_compute. reflexivity.
  - reflexivity.
Defined.

(** ** The mode choice and the wage floor *)



(** X19: the wage floor of 10 an hour applies exactly up to an annual income
    of 20880 (12 months of 21.75 days of 8 hours at 10): below it the
    commute decision prices time at 10, above it at the resident's own
    hourly income. *)
Theorem wage_floor_threshold (income : Q) :
  let income_per_hour := snd (get_individual_income income) in
  (income <= 20880 -> Py.max income_per_hour 10 == 10)
  /\ (20880 <= income -> Py.max income_per_hour 10 == income_per_hour).
Proof.
  unfold get_individual_income. cbn [snd].
  set (h := income / 12 / (2175 # 100) / 8).
  assert (H : h == income / 2088) by (unfold h; field).
  rewrite max_is_Qmax. split; intro L.
  - apply Q.max_r. rewrite H. apply Qle_shift_div_r; [reflexivity|]. lra.
  - apply Q.max_l. rewrite H. apply Qle_shift_div_l; [reflexivity|]. lra.
Qed.

Lemma wage_floor_threshold_witness :
  Py.max (snd (get_individual_income 12000)) 10 == 10.
Proof.
  apply (proj1 (wage_floor_threshold 12000)). discriminate.
Defined.

(** ** The city table and the income groups *)

Lemma list_index_missing (l : list String.string) (x : String.string) :
  ~ In x l -> list_index l x = Raise ValueError.
Proof.
  induction l as [|y l IH]; intro N; cbn [list_index]; [reflexivity|].
  destruct (String.eqb_spec y x) as [E|_].
  - exfalso. apply N. now left.
  - rewrite IH; [reflexivity|]. intro I. apply N. now right.
Qed.

Lemma list_index_first (before after : list String.string) (x : String.string) :
  ~ In x before ->
  list_index (before ++ x :: after) x = Ok (length before).
Proof.
  induction before as [|y before IH]; intro N; cbn [app list_index length].
  - now rewrite String.eqb_refl.
  - destruct (String.eqb_spec y x) as [E|_].
    + exfalso. apply N. now left.
    + rewrite IH; [reflexivity|]. intro I. apply N. now right.
Qed.

(** X20: a city that is not in the table has no minimum consumption and no
    income groups: both lookups raise [ValueError]. *)
Theorem unknown_city_raises (df : list CityRow) (city : String.string) :
  ~ In city (map city_name df) ->
  city_min_consumption df city = Raise ValueError
  /\ city_income df city = Raise ValueError.
Proof.
  intro N. unfold city_income, city_min_consumption, city_index.
  rewrite (list_index_missing _ _ N). split; reflexivity.
Qed.

Lemma unknown_city_raises_witness :
  city_income [mkCityRow Words.RAIL 50000 1500 (3 # 10)] Words.WALKING
  = Raise ValueError.
Proof.
  apply unknown_city_raises. cbn. intros [E|[]]. discriminate E.
Defined.

(** X21: when several rows carry the name of the city, the first one is
    used: its minimum consumption is returned, and the income groups are
    computed from its average income. *)
Theorem city_lookup_takes_first_row
    (before after : list CityRow) (row : CityRow) :
  ~ In (city_name row) (map city_name before) ->
  city_min_consumption (before ++ row :: after) (city_name row)
  = Ok (city_min_c_month row)
  /\ exists ci,
      city_income (before ++ row :: after) (city_name row) = Ok ci
      /\ income_city ci = city_average_income row.
Proof.
  intro N.
  assert (I : city_index (before ++ row :: after) (city_name row)
              = Ok (length before)).
  { unfold city_index. rewrite map_app. cbn [map].
    rewrite list_index_first by exact N. now rewrite length_map. }
  assert (At : forall f : CityRow -> Q,
             index (map f (before ++ row :: after)) (length before)
             = Ok (f row)).
  { intro f. unfold index. rewrite map_app. cbn [map].
    rewrite nth_error_app2 by (rewrite length_map; lia).
    rewrite length_map, Nat.sub_diag. reflexivity. }
  assert (M : city_min_consumption (before ++ row :: after) (city_name row)
              = Ok (city_min_c_month row)).
  { unfold city_min_consumption. rewrite I. cbn [Py.bind]. apply At. }
  split; [exact M|].
  unfold city_income. rewrite M, I. cbn [Py.bind]. rewrite At.
  unfold INCOME_GROUP.
  cbn [map app length Nat.sub seq last mapM Nat.eqb Nat.add index nth_error
       Py.bind].
  eexists. split; reflexivity.
Qed.

Lemma city_lookup_takes_first_row_witness :
  city_min_consumption
    ([mkCityRow Words.RAIL 50000 1500 (3 # 10)]
     ++ mkCityRow Words.WALKING 40000 1200 (25 # 100)
     :: [mkCityRow Words.WALKING 1 2 3])
    Words.WALKING
  = Ok 1200.
Proof.
  apply (proj1 (city_lookup_takes_first_row
                  [mkCityRow Words.RAIL 50000 1500 (3 # 10)]
                  [mkCityRow Words.WALKING 1 2 3]
                  (mkCityRow Words.WALKING 40000 1200 (25 # 100))
                  ltac:(cbn; intros [E|[]]; discriminate E))).
Defined.

Lemma py_min_le_r (a b : Q) : py_min a b <= b.
Proof.
  unfold py_min. destruct (Qlt_bool b a) eqn:B; [apply Qle_refl|].
  apply Qnot_lt_le. intro N. apply Qlt_bool_iff in N. congruence.
Qed.

Lemma tier_average_monotone (income g g' : Q) :
  0 <= income -> g <= g' ->
  (tier_average income g <= tier_average income g')%Z.
Proof.
  intros I G. unfold tier_average. apply int_monotone.
  apply mult_le_nonneg_l.
  - apply Qle_shift_div_l; [reflexivity|]. lra.
  - apply mult_le_nonneg_l; [|exact G].
    apply Qle_bool_iff. vm_compute. reflexivity.
Qed.

Lemma tier_average_nonneg (income g : Q) :
  0 <= income -> 0 <= g -> (0 <= tier_average income g)%Z.
Proof.
  intros I G. unfold tier_average. change 0%Z with (Py.int 0).
  apply int_monotone. apply Qmult_le_0_compat.
  - apply Qle_shift_div_l; [reflexivity|]. lra.
  - apply Qmult_le_0_compat; [|exact G].
    apply Qle_bool_iff. vm_compute. reflexivity.
Qed.

Lemma average_groups (c : Q) :
  map (fun i => Py.int (c / COUNTRY_INCOME * i))
      (map (fun i => ((URBAN_PEOPLE + RURAL_PEOPLE) * COUNTRY_INCOME
                      / (URBAN_PEOPLE + RURAL_PEOPLE * (1 / INCOME_MULTIPLE))
                      / COUNTRY_INCOME) * i) INCOME_GROUP)
  = map (tier_average c) INCOME_GROUP.
Proof. reflexivity. Qed.

(** X22: the income groups of a city whose average income is not negative:
    five averages and five ranges; the averages never decrease from a
    group to the next; each range ends where the next begins; and each
    average lies within the range of its group. *)
Theorem city_income_groups
    (df : list CityRow) (city : String.string) (ci : CityIncome) :
  city_income df city = Ok ci ->
  0 <= income_city ci ->
  length (average_income_perincomegroup ci) = 5%nat
  /\ length (income_range_perincomegroup ci) = 5%nat
  /\ (forall i a a',
         nth_error (average_income_perincomegroup ci) i = Some a ->
         nth_error (average_income_perincomegroup ci) (S i) = Some a' ->
         (a <= a')%Z)
  /\ (forall i range range',
         nth_error (income_range_perincomegroup ci) i = Some range ->
         nth_error (income_range_perincomegroup ci) (S i) = Some range' ->
         snd range = fst range')
  /\ (forall i range a,
         nth_error (income_range_perincomegroup ci) i = Some range ->
         nth_error (average_income_perincomegroup ci) i = Some a ->
         fst range <= inject_Z a <= snd range).
Proof.
  unfold city_income. intros H Pos.
  destruct (city_index df city) as [i0|]; cbn [Py.bind] in H; [|discriminate].
  destruct (index (map city_average_income df) i0) as [c|];
    cbn [Py.bind] in H; [|discriminate].
  destruct (city_min_consumption df city) as [m|]; cbn [Py.bind] in H;
    [|discriminate].
  cbv zeta in H. rewrite average_groups in H.
  pose proof (fun P => tier_average_nonneg c 8601 P ltac:(discriminate)) as G0.
  pose proof (fun P => tier_average_monotone c 8601 19303 P ltac:(discriminate))
    as G1.
  pose proof (fun P => tier_average_monotone c 19303 30598 P ltac:(discriminate))
    as G2.
  pose proof (fun P => tier_average_monotone c 30598 47397 P ltac:(discriminate))
    as G3.
  pose proof (fun P => tier_average_monotone c 47397 90116 P ltac:(discriminate))
    as G4.
  revert G0 G1 G2 G3 G4 H. generalize (tier_average c).
  intros T G0 G1 G2 G3 G4 H.
  unfold INCOME_GROUP in H.
  cbn [map app length Nat.sub seq last mapM Nat.eqb Nat.add index nth_error
       Py.bind] in H.
  injection H as <-. cbn [income_city] in Pos.
  specialize (G0 Pos). specialize (G1 Pos). specialize (G2 Pos).
  specialize (G3 Pos). specialize (G4 Pos).
  cbn [average_income_perincomegroup income_range_perincomegroup].
  pose proof (py_min_le_r (m * 12) (inject_Z (T 8601) / (12 # 10))) as L0.
  rewrite Zle_Qle in G0, G1, G2, G3, G4. change (inject_Z 0) with 0 in G0.
  split; [reflexivity|]. split; [reflexivity|]. split; [|split].
  - intros [|[|[|[|[|[|i]]]]]] a a' Ha Ha'; cbn [nth_error] in Ha, Ha';
      try discriminate; injection Ha as <-; injection Ha' as <-;
      rewrite Zle_Qle; assumption.
  - intros [|[|[|[|[|[|i]]]]]] rg rg' Hr Hr'; cbn [nth_error] in Hr, Hr';
      try discriminate; injection Hr as <-; injection Hr' as <-; reflexivity.
  - intros [|[|[|[|[|[|i]]]]]] rg a Hr Ha; cbn [nth_error] in Hr, Ha;
      try discriminate; injection Hr as <-; injection Ha as <-;
      cbn [fst snd]; split;
      try (apply Qle_shift_div_r; [reflexivity|]);
      try (apply Qle_shift_div_l; [reflexivity|]); try lra.
    apply Qle_trans with (inject_Z (T 8601) / (12 # 10)); [exact L0|].
    apply Qle_shift_div_r; [reflexivity|]. lra.
Qed.

Lemma city_income_groups_witness :
  exists ci,
    city_income [mkCityRow Words.RAIL 50000 1500 (3 # 10);
                 mkCityRow Words.WALKING 40000 1200 (25 # 100)]
                Words.WALKING = Ok ci
    /\ length (average_income_perincomegroup ci) = 5%nat.
Proof.
  destruct (city_income [mkCityRow Words.RAIL 50000 1500 (3 # 10);
                         mkCityRow Words.WALKING 40000 1200 (25 # 100)]
                        Words.WALKING) as [ci|err] eqn:E;
    [|vm_compute in E; discriminate E].
  exists ci. split; [reflexivity|].
  apply (city_income_groups _ _ _ E).
  vm_compute in E. injection E as <-. cbn. discriminate.
Defined.

(** ** From rainfall to attenuation *)

(** X23: a day without rainfall gets the attenuation 1, and the commute
    decision of that day, whatever its index, adds nothing; the
    attenuation series has one value per rainfall reading. *)
Theorem dry_day_costs_nothing
    (F : Floats) (rainfall_list : list Q) (r : nat) (rainfall : Q)
    (rent : Listing) (income_per_hour : Q) :
  nth_error rainfall_list r = Some rainfall ->
  rainfall == 0 ->
  length (rainfall_model F rainfall_list) = length rainfall_list
  /\ nth_error (rainfall_model F rainfall_list) r = Some 1
  /\ commute_decision r 1 rent income_per_hour = Ok (mkCommute 0 0 0 0).
Proof.
  intros N Z. unfold rainfall_model. split; [apply length_map|]. split.
  - rewrite nth_error_map, N. cbn [option_map].
    apply Qeq_bool_iff in Z. now rewrite Z.
  - unfold commute_decision. destruct (rest_day r); reflexivity.
Qed.

Lemma dry_day_costs_nothing_witness :
  nth_error (rainfall_model (mkFloats (fun x _ => x) (fun _ => 1 # 2))
                            [0; 3; 0; 0]) 3
  = Some 1.
Proof.
  apply (dry_day_costs_nothing (mkFloats (fun x _ => x) (fun _ => 1 # 2))
           [0; 3; 0; 0] 3 0 (mkListing 1000 5 20 30 6 40 4) 12 eq_refl).
  reflexivity.
Defined.

(** ** The fare of a city without taxi fares *)




(** ** The steps of a transit route *)

Lemma sum_cells_from (l : list (option Q)) :
  forall start total,
    sum_cells l start = Ok total ->
    exists values,
      l = map Some values /\ total == start + Py.sum values.
Proof.
  induction l as [|[x|] l IH]; intros start total H; cbn [sum_cells] in H.
  - injection H as <-. exists []. split; [reflexivity|]. cbn. ring.
  - apply IH in H. destruct H as (values & -> & T).
    exists (x :: values). split; [reflexivity|]. rewrite T, sum_cons. ring.
  - discriminate.
Qed.

Lemma sum_cells_of_values (values : list Q) :
  forall start, exists total,
    sum_cells (map Some values) start = Ok total
    /\ total == start + Py.sum values.
Proof.
  induction values as [|x values IH]; intro start; cbn [map sum_cells].
  - exists start. split; [reflexivity|]. cbn. ring.
  - destruct (IH (start + x)) as (total & -> & T). exists total.
    split; [reflexivity|]. rewrite T, sum_cons. ring.
Qed.

Lemma route_steps_walking (list_route : list Step) :
  Forall (fun s => is_word (mode s) Words.WALKING = true) list_route ->
  forall acc,
  exists legs,
    route_steps acc list_route = Ok legs
    /\ walking_time_1 legs = walking_time_1 acc ++ map duration list_route
    /\ walking_distance_1 legs
       = walking_distance_1 acc ++ map distance list_route
    /\ transit_time_1 legs = transit_time_1 acc
    /\ transit_distance_1 legs = transit_distance_1 acc
    /\ transit_price_1 legs = transit_price_1 acc
    /\ length (commuting_mode_1 legs)
       = (length (commuting_mode_1 acc) + length list_route)%nat.
Proof.
  induction 1 as [|s l Hs _ IH]; intro acc; cbn [route_steps].
  - exists acc. cbn [map length]. rewrite !app_nil_r, Nat.add_0_r. tauto.
  - unfold route_step. rewrite Hs. cbn [Py.bind].
    destruct (IH (mkLegs (walking_time_1 acc ++ [duration s])
                         (walking_distance_1 acc ++ [distance s])
                         (transit_time_1 acc) (transit_distance_1 acc)
                         (transit_price_1 acc)
                         (commuting_mode_1 acc ++ [mode s])))
      as (legs & -> & A & B & C & D & E & L).
    exists legs. cbn [walking_time_1 walking_distance_1 transit_time_1
                      transit_distance_1 transit_price_1 commuting_mode_1] in *.
    rewrite A, B, C, D, E, L, <- !app_assoc, length_app. cbn [app map length].
    repeat split; try reflexivity. lia.
Qed.

(** X25: a route made of walking steps only, each with its duration and its
    distance, has no transit time, distance or price; its walking time is
    the sum of the durations and its walking distance the sum of the
    distances divided by 1000, with one mode recorded per step. *)
Theorem walking_route_has_no_transit
    (list_route : list Step) (durations distances : list Q) :
  Forall (fun s => is_word (mode s) Words.WALKING = true) list_route ->
  map duration list_route = map Some durations ->
  map distance list_route = map Some distances ->
  exists summary,
    parse_route list_route = Ok summary
    /\ route_transit_time summary = 0
    /\ route_transit_distance summary == 0
    /\ route_transit_price summary == 0
    /\ route_walking_time summary == Py.sum durations
    /\ route_walking_distance summary == Py.sum distances / 1000
    /\ length (route_commuting_mode summary) = length list_route.
Proof.
  intros W Du Di. unfold parse_route.
  destruct (route_steps_walking list_route W (mkLegs [] [] [] [] [] []))
    as (legs & -> & A & B & C & D & E & L).
  cbn [walking_time_1 walking_distance_1 transit_time_1 transit_distance_1
       transit_price_1 commuting_mode_1 app length Nat.add Py.bind] in *.
  rewrite A, B, C, D, E, Du, Di.
  destruct (sum_cells_of_values durations 0) as (t & -> & Ht).
  destruct (sum_cells_of_values distances 0) as (d & -> & Hd).
  cbn [Py.bind sum_cells]. eexists. split; [reflexivity|].
  cbn [route_transit_time route_transit_distance route_transit_price
       route_walking_time route_walking_distance route_commuting_mode].
  split; [reflexivity|]. split; [reflexivity|]. split; [reflexivity|].
  split; [rewrite Ht; ring|]. split; [rewrite Hd; field|exact L].
Qed.

Lemma walking_route_has_no_transit_witness :
  exists summary,
    parse_route [mkStep (Some Words.WALKING) (Some 5) (Some 400) None;
                 mkStep (Some Words.WALKING) (Some 7) (Some 600) None]
    = Ok summary
    /\ route_walking_time summary == 12
    /\ route_walking_distance summary == 1.
Proof.
  destruct (walking_route_has_no_transit
              [mkStep (Some Words.WALKING) (Some 5) (Some 400) None;
               mkStep (Some Words.WALKING) (Some 7) (Some 600) None]
              [5; 7] [400; 600])
    as (summary & P & _ & _ & _ & T & D & _).
  - repeat constructor.
  - reflexivity.
  - reflexivity.
  - exists summary. split; [exact P|].
    split; [rewrite T|rewrite D]; reflexivity.
Defined.

Lemma route_step_fares (acc acc' : Legs) (s : Step) :
  fare_known s ->
  cells_nonneg (transit_price_1 acc) ->
  route_step acc s = Ok acc' ->
  cells_nonneg (transit_price_1 acc').
Proof.
  intros K Inv. unfold route_step.
  destruct (is_word (mode s) Words.WALKING) eqn:Wk.
  - intro H. injection H as <-. exact Inv.
  - destruct (lines s) as [[|first rest]|] eqn:L; cbn [index nth_error Py.bind];
      try discriminate.
    destruct (price first) as [p|] eqn:P.
    + destruct (Qeq_bool p (- (1))) eqn:Free; cbn [Py.bind].
      * intro H. injection H as <-. cbn [transit_price_1].
        apply Forall_app. split; [exact Inv|]. repeat constructor. discriminate.
      * assert (NN : 0 <= p).
        { destruct (K Wk first rest p L P) as [E|NN]; [|exact NN].
          apply Qeq_bool_iff in E. congruence. }
        destruct (is_word (vehicle first) Words.RAIL); cbn [Py.bind];
          intro H; injection H as <-; cbn [transit_price_1];
          apply Forall_app; (split; [exact Inv|]); repeat constructor.
        -- apply Qmult_le_0_compat; [exact NN|discriminate].
        -- exact NN.
    + destruct (is_word (vehicle first) Words.RAIL); cbn [Py.bind];
        [discriminate|].
      intro H. injection H as <-. cbn [transit_price_1].
      apply Forall_app. split; [exact Inv|]. repeat constructor.
Qed.

Lemma route_steps_fares (list_route : list Step) :
  Forall fare_known list_route ->
  forall acc legs,
    cells_nonneg (transit_price_1 acc) ->
    route_steps acc list_route = Ok legs ->
    cells_nonneg (transit_price_1 legs).
Proof.
  induction 1 as [|s l Hs _ IH]; intros acc legs Inv H; cbn [route_steps] in H.
  - now injection H as <-.
  - destruct (route_step acc s) as [acc'|err] eqn:S; cbn [Py.bind] in H;
      [|discriminate].
    eapply IH; [|exact H]. eapply route_step_fares; eassumption.
Qed.

(** X26: when every transit step of a route has a fare that is either the
    marker [-1] of an unknown fare, counted as free, or not negative,
    the transit price of a parsed route is not negative. *)
Theorem route_price_nonneg (list_route : list Step) (summary : RouteSummary) :
  Forall fare_known list_route ->
  parse_route list_route = Ok summary ->
  0 <= route_transit_price summary.
Proof.
  intros K H. unfold parse_route in H.
  destruct (route_steps _ list_route) as [legs|err] eqn:R; cbn [Py.bind] in H;
    [|discriminate].
  apply (route_steps_fares _ K) in R; [|constructor].
  destruct (sum_cells (walking_time_1 legs) 0); cbn [Py.bind] in H;
    [|discriminate].
  destruct (sum_cells (walking_distance_1 legs) 0); cbn [Py.bind] in H;
    [|discriminate].
  destruct (sum_cells (transit_time_1 legs) 0); cbn [Py.bind] in H;
    [|discriminate].
  destruct (sum_cells (transit_distance_1 legs) 0); cbn [Py.bind] in H;
    [|discriminate].
  destruct (sum_cells (transit_price_1 legs) 0) as [total|] eqn:T;
    cbn [Py.bind] in H; [|discriminate].
  injection H as <-. cbn [route_transit_price].
  apply sum_cells_from in T. destruct T as (values & E & ->).
  rewrite E in R. unfold cells_nonneg in R. rewrite Forall_map in R.
  apply sum_nonneg in R. apply Qle_shift_div_l; [reflexivity|]. lra.
Qed.

Lemma route_price_nonneg_witness :
  exists summary,
    parse_route
      [mkStep (Some Words.WALKING) (Some 5) (Some 400) None;
       mkStep None None None
              (Some [mkLine (Some Words.RAIL) (Some 20) (Some 9000) (Some 4)]);
       mkStep None None None
              (Some [mkLine None (Some 10) (Some 3000) (Some (- (1)))])]
    = Ok summary
    /\ 0 <= route_transit_price summary.
Proof.
  eexists. split; [vm_compute; reflexivity|].
  apply (route_price_nonneg
           [mkStep (Some Words.WALKING) (Some 5) (Some 400) None;
            mkStep None None None
                   (Some [mkLine (Some Words.RAIL) (Some 20) (Some 9000)
                                 (Some 4)]);
            mkStep None None None
                   (Some [mkLine None (Some 10) (Some 3000) (Some (- (1)))])]).
  - apply Forall_cons; [|apply Forall_cons; [|apply Forall_cons; [|constructor]]].
    + intro W. discriminate W.
    + intros _ first rest p L P. injection L as <- _. cbn in P.
      injection P as <-. right. discriminate.
    + intros _ first rest p L P. injection L as <- _. cbn in P.
      injection P as <-. left. reflexivity.
  - vm_compute. reflexivity.
Defined.

Lemma route_step_error (acc : Legs) (s : Step) (err : Py.Error) :
  route_step acc s = Raise err -> err = TypeError \/ err = IndexError.
Proof.
  unfold route_step. destruct (is_word (mode s) Words.WALKING); [discriminate|].
  destruct (lines s) as [[|first rest]|]; cbn [index nth_error Py.bind].
  - intro H. injection H as <-. now right.
  - destruct (price first) as [p|].
    + destruct (Qeq_bool p (- (1))); cbn [Py.bind]; [discriminate|].
      destruct (is_word (vehicle first) Words.RAIL); discriminate.
    + destruct (is_word (vehicle first) Words.RAIL); cbn [Py.bind];
        [|discriminate].
      intro H. injection H as <-. now left.
  - intro H. injection H as <-. now left.
Qed.

(** X27: a route with a step that is not a walk and has no line to read (the
    [lines] key missing, or its list empty) is not parsed: the loop stops
    with a [TypeError] or an [IndexError], wherever the step stands. *)
Theorem route_without_line_raises (list_route : list Step) :
  Exists no_line list_route ->
  exists err,
    parse_route list_route = Raise err
    /\ (err = TypeError \/ err = IndexError).
Proof.
  intro E. unfold parse_route.
  assert (R : forall acc, exists err,
             route_steps acc list_route = Raise err
             /\ (err = TypeError \/ err = IndexError)).
  { induction E as [s l (Wk & L)|s l _ IH]; intro acc; cbn [route_steps].
    - unfold route_step. rewrite Wk.
      destruct L as [-> | ->]; cbn [index nth_error Py.bind]; eauto.
    - destruct (route_step acc s) as [acc'|err] eqn:S; cbn [Py.bind].
      + apply IH.
      + exists err. split; [reflexivity|]. eapply route_step_error. exact S. }
  destruct (R (mkLegs [] [] [] [] [] [])) as (err & -> & Kind).
  exists err. split; [reflexivity|exact Kind].
Qed.

Lemma route_without_line_raises_witness :
  exists err,
    parse_route [mkStep (Some Words.WALKING) (Some 5) (Some 400) None;
                 mkStep (Some Words.RAIL) (Some 20) (Some 9000) (Some [])]
    = Raise err
    /\ (err = TypeError \/ err = IndexError).
Proof.
  apply route_without_line_raises.
  apply Exists_cons_tl, Exists_cons_hd. split; [reflexivity|now right].
Defined.
